(** * NexGen Logistics dashboard: data derivation, filters, KPIs, insights

    A shallow embedding of [nexgen-logistics-app.py]:
    - [load_data]'s derived columns (lines 78-84),
    - [create_kpi_metrics] (lines 92-109),
    - the sidebar filters of [main] (lines 135-158),
    - the insight rules of [main] (lines 398-431),
    - the KPI row of the dashboard tab (lines 171-187) and the inventory
      tab (lines 317-339).

    Conventions.
    - A float64 column cell is an [option Q]: [None] is NaN, and [Some q] is
      the number, with exact rational arithmetic standing for float64
      arithmetic.  Where rounding decides a statement, the expression is
      evaluated again on binary64 floats (see [percent_f64]).  An object (string) column cell is an [option string],
      [None] again being NaN; a datetime64 cell is an [option Z], [None]
      being NaT.
    - A DataFrame is its list of column labels together with its rows.  A
      row is a record carrying the columns the modelled code reads; the
      field of a row whose column label is absent from the frame is never
      read, because every access in the model is guarded by the same
      membership test as in the source, or fails with [KeyError].
    - An f-string is the list of its literal pieces and formatted fields. *)

From Stdlib Require Import List String ZArith QArith Qround Bool Lia Lqa.
From Stdlib Require Import Sorted Permutation Ascii NArith.
From Stdlib Require PrimFloat Uint63 FloatOps SpecFloat.
Import ListNotations.
Local Open Scope string_scope.
Local Open Scope list_scope.
Local Open Scope Q_scope.

(** ** Cells and NaN-aware operations *)

Definition cell := option string.
Definition num := option Q.
Definition datetime := option Z.

(** [a + b] on float64 cells: NaN is absorbing. *)
Definition nan_add (a b : num) : num :=
  match a, b with
  | Some x, Some y => Some (x + y)
  | _, _ => None
  end.

(** [a - b] on float64 cells. *)
Definition nan_sub (a b : num) : num :=
  match a, b with
  | Some x, Some y => Some (x - y)
  | _, _ => None
  end.

(** [series == 'literal'], elementwise: NaN compares unequal to a string. *)
Definition str_eq (c : cell) (s : string) : bool :=
  match c with
  | Some x => String.eqb x s
  | None => false
  end.

(** [series > q] with a float64 scalar: any comparison with NaN is False. *)
Definition nan_gt (a b : num) : bool :=
  match a, b with
  | Some x, Some y => negb (Qle_bool x y)
  | _, _ => false
  end.

(** [series <= k]. *)
Definition nan_le (a b : num) : bool :=
  match a, b with
  | Some x, Some y => Qle_bool x y
  | _, _ => false
  end.

(** [Series.dropna()] *)
Fixpoint dropna (xs : list num) : list Q :=
  match xs with
  | [] => []
  | Some x :: t => x :: dropna t
  | None :: t => dropna t
  end.

Fixpoint Qsum (xs : list Q) : Q :=
  match xs with
  | [] => 0
  | x :: t => x + Qsum t
  end.

Definition Qlen {A} (xs : list A) : Q := inject_Z (Z.of_nat (List.length xs)).

(** [Series.mean()]: NaN cells are skipped; the mean of no value is NaN. *)
Definition mean (xs : list num) : num :=
  match dropna xs with
  | [] => None
  | v :: vs => Some (Qsum (v :: vs) / Qlen (v :: vs))
  end.

(** ** The merged order table and [load_data]'s derived columns *)

(** A row of the table obtained by the four left merges on [Order_ID]
    (lines 72-75), restricted to the columns read afterwards. *)
Record Order := mkOrder {
  Order_ID : string;
  Order_Date : datetime;
  Priority : cell;
  Customer_Segment : cell;
  Carrier : cell;
  Delivery_Status : cell;
  Promised_Delivery_Days : num;
  Actual_Delivery_Days : num;
  Fuel_Cost : num;
  Labor_Cost : num;
  Vehicle_Maintenance : num;
  Insurance : num;
  Packaging_Cost : num;
  Technology_Platform_Fee : num;
  Other_Overhead : num;
  Customer_Rating : num
}.

(** A row after the derived columns are assigned. *)
Record Row := mkRow {
  order : Order;
  Total_Cost : num;
  Delivery_Delay_Days : num;
  On_Time : bool
}.

Record Merged := mkMerged {
  mcolumns : list string;
  mrows : list Order
}.

Record DataFrame := mkDF {
  columns : list string;
  rows : list Row
}.

(** ['c' in df.columns] *)
Definition has_col (c : string) (cols : list string) : bool :=
  existsb (String.eqb c) cols.

(** [df['c'] = ...]: an existing label is overwritten in place, a new one
    is appended. *)
Definition set_col (c : string) (cols : list string) : list string :=
  if has_col c cols then cols else cols ++ [c].

(** The seven cost components, in the order of the sum at lines 78-81. *)
Definition cost_components (o : Order) : list num :=
  [Fuel_Cost o; Labor_Cost o; Vehicle_Maintenance o; Insurance o;
   Packaging_Cost o; Technology_Platform_Fee o; Other_Overhead o].

Definition total_cost (o : Order) : num :=
  nan_add (nan_add (nan_add (nan_add (nan_add (nan_add
    (Fuel_Cost o) (Labor_Cost o))
    (Vehicle_Maintenance o)) (Insurance o))
    (Packaging_Cost o)) (Technology_Platform_Fee o)) (Other_Overhead o).

Definition derive_row (o : Order) : Row :=
  {| order := o;
     Total_Cost := total_cost o;
     Delivery_Delay_Days :=
       nan_sub (Actual_Delivery_Days o) (Promised_Delivery_Days o);
     On_Time := str_eq (Delivery_Status o) "On-Time" |}.

(** The labels lines 78-84 index; a missing one raises [KeyError], which
    the [except] clause of [load_data] turns into [None]. *)
Definition required_columns : list string :=
  ["Fuel_Cost"; "Labor_Cost"; "Vehicle_Maintenance"; "Insurance";
   "Packaging_Cost"; "Technology_Platform_Fee"; "Other_Overhead";
   "Actual_Delivery_Days"; "Promised_Delivery_Days"; "Delivery_Status"].

(** Lines 77-86 of [load_data], from the merged table on. *)
Definition load_data (m : Merged) : option DataFrame :=
  if forallb (fun c => has_col c (mcolumns m)) required_columns then
    Some {| columns :=
              set_col "On_Time"
                (set_col "Delivery_Delay_Days"
                   (set_col "Total_Cost" (mcolumns m)));
            rows := map derive_row (mrows m) |}
  else None.

(** ** Exceptions *)

Inductive exn := KeyError (label : string).

Inductive result (A : Type) :=
  | Ok (a : A)
  | Raise (e : exn).
Arguments Ok {A} a.
Arguments Raise {A} e.

Definition bind {A B} (m : result A) (k : A -> result B) : result B :=
  match m with
  | Ok a => k a
  | Raise e => Raise e
  end.

Notation "x <- m ;; k" := (bind m (fun x => k))
  (at level 61, m at next level, right associativity).

(** [df['label']], read through the row projection [f]. *)
Definition getitem {A} (label : string) (f : Row -> A) (df : DataFrame)
    : result (list A) :=
  if has_col label (columns df) then Ok (map f (rows df))
  else Raise (KeyError label).

(** [df.empty]: some axis has length zero. *)
Definition empty (df : DataFrame) : bool :=
  match rows df, columns df with
  | [], _ => true
  | _, [] => true
  | _, _ => false
  end.

(** [len(df)] *)
Definition len (df : DataFrame) : Z := Z.of_nat (List.length (rows df)).

(** [df[mask]]: the rows whose mask entry is True, in order. *)
Definition select (mask : Row -> bool) (df : DataFrame) : DataFrame :=
  {| columns := columns df; rows := filter mask (rows df) |}.

(** [boolean_series.sum()] *)
Definition bsum (bs : list bool) : Z :=
  Z.of_nat (List.length (filter (fun b => b) bs)).

(** ** [create_kpi_metrics] *)

(** Python values stored in the KPI dict. *)
Inductive value :=
  | VInt (z : Z)
  | VFloat (x : num).

Definition dict := list (string * value).

(** [d.get(k)]; [d[k]] raises [KeyError] where this is [None]. *)
Fixpoint dict_get (k : string) (d : dict) : option value :=
  match d with
  | [] => None
  | (k', v) :: t => if String.eqb k k' then Some v else dict_get k t
  end.

(** The number a value stands for; [None] for a float NaN. *)
Definition number (v : value) : num :=
  match v with
  | VInt z => Some (inject_Z z)
  | VFloat x => x
  end.

(** [count / total_orders * 100] *)
Definition percent (count total : Z) : Q :=
  inject_Z count / inject_Z total * 100.

Definition create_kpi_metrics (df : option DataFrame) : result dict :=
  match df with
  | None => Ok []
  | Some df =>
    if empty df then Ok [] else
    let total_orders := len df in
    on_time_rate <-
      (if (0 <? total_orders)%Z then
         on_time <- getitem "On_Time" On_Time df ;;
         Ok (VFloat (Some (percent (bsum on_time) total_orders)))
       else Ok (VInt 0)) ;;
    avg_rating <-
      (if has_col "Customer_Rating" (columns df) then
         rating <- getitem "Customer_Rating"
                     (fun r => Customer_Rating (order r)) df ;;
         Ok (VFloat (mean rating))
       else Ok (VInt 0)) ;;
    avg_cost <-
      (if has_col "Total_Cost" (columns df) then
         cost <- getitem "Total_Cost" Total_Cost df ;;
         Ok (VFloat (mean cost))
       else Ok (VInt 0)) ;;
    severely_delayed_rate <-
      (if (0 <? total_orders)%Z then
         status <- getitem "Delivery_Status"
                     (fun r => Delivery_Status (order r)) df ;;
         Ok (VFloat (Some
               (percent
                  (bsum (map (fun c => str_eq c "Severely-Delayed") status))
                  total_orders)))
       else Ok (VInt 0)) ;;
    Ok [("total_orders", VInt total_orders);
        ("on_time_rate", on_time_rate);
        ("avg_rating", avg_rating);
        ("avg_cost", avg_cost);
        ("severely_delayed_rate", severely_delayed_rate)]
  end.

(** ** The sidebar filters of [main] *)

(** What the sidebar widgets return: the date input yields a tuple of
    zero, one or two dates; the carrier options have NaN dropped, the
    priority and segment options may contain it. *)
Record FilterSpec := mkSpec {
  date_range : list Z;
  carriers : list string;
  priorities : list cell;
  segments : list cell
}.

Definition cell_eqb (a b : cell) : bool :=
  match a, b with
  | Some x, Some y => String.eqb x y
  | None, None => true
  | _, _ => false
  end.

(** [series.isin(values)]; NaN matches a NaN among the values. *)
Definition isin (values : list cell) (c : cell) : bool :=
  existsb (cell_eqb c) values.

(** [(series >= lo) & (series <= hi)]; NaT compares False. *)
Definition between (lo hi : Z) (d : datetime) : bool :=
  match d with
  | Some t => (lo <=? t)%Z && (t <=? hi)%Z
  | None => false
  end.

(** Python truthiness of a list. *)
Definition truthy {A} (l : list A) : bool :=
  match l with
  | [] => false
  | _ :: _ => true
  end.

(** Lines 127-158: the date filter, then the three categorical ones. *)
Definition apply_filters (s : FilterSpec) (main_df : DataFrame) : DataFrame :=
  let main_df :=
    if has_col "Order_Date" (columns main_df) then
      match date_range s with
      | [d0; d1] =>
          select (fun r => between d0 d1 (Order_Date (order r))) main_df
      | _ => main_df
      end
    else main_df in
  let main_df :=
    if truthy (carriers s) && has_col "Carrier" (columns main_df) then
      select (fun r => isin (map Some (carriers s)) (Carrier (order r)))
        main_df
    else main_df in
  let main_df :=
    if truthy (priorities s) && has_col "Priority" (columns main_df) then
      select (fun r => isin (priorities s) (Priority (order r))) main_df
    else main_df in
  let main_df :=
    if truthy (segments s)
       && has_col "Customer_Segment" (columns main_df) then
      select (fun r => isin (segments s) (Customer_Segment (order r)))
        main_df
    else main_df in
  main_df.

(** ** The insight rules of [main] *)

(** [Series.quantile(q)] with the default linear interpolation: NaN cells
    are dropped, the rest sorted, and the value at the fractional position
    [(n - 1) * q] interpolated between its two neighbours; NaN when no
    value is left. *)
Fixpoint insert (x : Q) (l : list Q) : list Q :=
  match l with
  | [] => [x]
  | y :: t => if Qle_bool x y then x :: l else y :: insert x t
  end.

Fixpoint sort (l : list Q) : list Q :=
  match l with
  | [] => []
  | x :: t => insert x (sort t)
  end.

Definition quantile (q : Q) (xs : list num) : num :=
  match sort (dropna xs) with
  | [] => None
  | v0 :: vs =>
      let n := Z.of_nat (List.length (v0 :: vs)) in
      let pos := inject_Z (n - 1) * q in
      let lo := Qfloor pos in
      let hi := Z.min (lo + 1) (n - 1) in
      let a := nth (Z.to_nat lo) (v0 :: vs) v0 in
      let b := nth (Z.to_nat hi) (v0 :: vs) v0 in
      Some (a + (b - a) * (pos - inject_Z lo))
  end.

Inductive severity := warning | info.

(** A field of an f-string. *)
Inductive piece :=
  | Lit (s : string)          (* literal text *)
  | Fixed1 (x : Q)            (* [{x:.1f}] *)
  | Plain (n : Z).            (* [{n}] *)

Record Insight := mkInsight {
  type : severity;
  title : string;
  description : list piece;
  recommendation : string
}.

Definition Qlt_bool (x y : Q) : bool := negb (Qle_bool y x).

Definition delivery_insight (on_time_rate : Q) : Insight :=
  {| type := warning;
     title := "Delivery Performance Issue";
     description :=
       [Lit "On-time delivery rate is only "; Fixed1 on_time_rate;
        Lit "%, below industry standard of 75%."];
     recommendation :=
       "Focus on route optimization and carrier performance improvement." |}.

Definition cost_insight (n : Z) : Insight :=
  {| type := info;
     title := "Cost Optimization Opportunity";
     description :=
       [Plain n; Lit " orders (top 10%) have significantly higher costs."];
     recommendation :=
       "Analyze these high-cost orders for potential savings in fuel, labor, or maintenance." |}.

Definition rating_insight (n : Z) : Insight :=
  {| type := warning;
     title := "Customer Satisfaction Risk";
     description := [Plain n; Lit " orders received ratings of 2 or below."];
     recommendation :=
       "Investigate common factors in low-rated deliveries and implement quality improvements." |}.

(** Lines 398-431.  The guards make every column access succeed, so no
    exception can be raised here. *)
Definition insight_rules (main_df : DataFrame) : list Insight :=
  let insights := [] in
  if negb (empty main_df) then
    let on_time_rate :=
      if has_col "On_Time" (columns main_df) then
        inject_Z (bsum (map On_Time (rows main_df)))
          / inject_Z (len main_df) * 100
      else 0 in
    let insights :=
      if Qlt_bool on_time_rate 75 then
        insights ++ [delivery_insight on_time_rate]
      else insights in
    let insights :=
      if has_col "Total_Cost" (columns main_df) then
        let high_cost_orders :=
          select (fun r =>
                    nan_gt (Total_Cost r)
                      (quantile (9 # 10) (map Total_Cost (rows main_df))))
            main_df in
        if negb (empty high_cost_orders) then
          insights ++ [cost_insight (len high_cost_orders)]
        else insights
      else insights in
    let insights :=
      if has_col "Customer_Rating" (columns main_df) then
        let low_rated_orders :=
          select (fun r => nan_le (Customer_Rating (order r)) (Some 2))
            main_df in
        if negb (empty low_rated_orders) then
          insights ++ [rating_insight (len low_rated_orders)]
        else insights
      else insights in
    insights
  else insights.

(** ** Sample data *)

Definition all_columns : list string :=
  ["Order_ID"; "Order_Date"; "Priority"; "Customer_Segment"; "Carrier";
   "Delivery_Status"; "Promised_Delivery_Days"; "Actual_Delivery_Days";
   "Fuel_Cost"; "Labor_Cost"; "Vehicle_Maintenance"; "Insurance";
   "Packaging_Cost"; "Technology_Platform_Fee"; "Other_Overhead";
   "Customer_Rating"].

Definition sample_order (id : string) (day : Z) (carrier status : string)
    (fuel : num) (rating : num) : Order :=
  {| Order_ID := id; Order_Date := Some day;
     Priority := Some "High"; Customer_Segment := Some "SMB";
     Carrier := Some carrier; Delivery_Status := Some status;
     Promised_Delivery_Days := Some 3; Actual_Delivery_Days := Some 5;
     Fuel_Cost := fuel; Labor_Cost := Some 50;
     Vehicle_Maintenance := Some 20; Insurance := Some 10;
     Packaging_Cost := Some 5; Technology_Platform_Fee := Some 5;
     Other_Overhead := Some 10; Customer_Rating := rating |}.

(** An order the delivery file has no record of: the left merge leaves its
    delivery columns NaN. *)
Definition unmatched_order (id : string) : Order :=
  {| Order_ID := id; Order_Date := Some 4%Z;
     Priority := Some "Low"; Customer_Segment := Some "SMB";
     Carrier := Some "BlueDart"; Delivery_Status := None;
     Promised_Delivery_Days := None; Actual_Delivery_Days := None;
     Fuel_Cost := Some 100; Labor_Cost := Some 50;
     Vehicle_Maintenance := Some 20; Insurance := Some 10;
     Packaging_Cost := Some 5; Technology_Platform_Fee := Some 5;
     Other_Overhead := Some 10; Customer_Rating := None |}.

Definition sample_merged : Merged :=
  {| mcolumns := all_columns;
     mrows :=
       [sample_order "O1" 1 "BlueDart" "On-Time" (Some 100) (Some 5);
        sample_order "O2" 2 "BlueDart" "On-Time" (Some 100) (Some 4);
        sample_order "O3" 3 "Delhivery" "Delayed" None (Some 2);
        sample_order "O4" 4 "Delhivery" "Severely-Delayed" (Some 300) None] |}.

Definition sample_df : DataFrame :=
  {| columns := set_col "On_Time" (set_col "Delivery_Delay_Days"
                  (set_col "Total_Cost" all_columns));
     rows := map derive_row (mrows sample_merged) |}.

(** A table in which no order has feedback: the [Customer_Rating] column
    is present and holds NaN only. *)
Definition no_feedback_df : DataFrame :=
  {| columns := columns sample_df;
     rows := [derive_row (unmatched_order "O5")] |}.

(** The sample orders together with one the delivery file does not know. *)
Definition merged_with_gap : Merged :=
  {| mcolumns := all_columns;
     mrows := mrows sample_merged ++ [unmatched_order "O5"] |}.

Definition df_with_gap : DataFrame :=
  {| columns := columns sample_df;
     rows := map derive_row (mrows merged_with_gap) |}.

(** ** The three rules, one at a time *)

(** The rate line 402 computes. *)
Definition insight_on_time_rate (main_df : DataFrame) : Q :=
  if has_col "On_Time" (columns main_df) then
    inject_Z (bsum (map On_Time (rows main_df)))
      / inject_Z (len main_df) * 100
  else 0.

(** The threshold line 413 computes. *)
Definition p90 (main_df : DataFrame) : num :=
  quantile (9 # 10) (map Total_Cost (rows main_df)).

(** What lines 403-409 append. *)
Definition delivery_rule (main_df : DataFrame) : list Insight :=
  if Qlt_bool (insight_on_time_rate main_df) 75 then
    [delivery_insight (insight_on_time_rate main_df)]
  else [].

(** What lines 412-420 append. *)
Definition cost_rule (main_df : DataFrame) : list Insight :=
  if has_col "Total_Cost" (columns main_df) then
    let high_cost_orders :=
      select (fun r => nan_gt (Total_Cost r) (p90 main_df)) main_df in
    if negb (empty high_cost_orders) then
      [cost_insight (len high_cost_orders)]
    else []
  else [].

(** What lines 423-431 append. *)
Definition rating_rule (main_df : DataFrame) : list Insight :=
  if has_col "Customer_Rating" (columns main_df) then
    let low_rated_orders :=
      select (fun r => nan_le (Customer_Rating (order r)) (Some 2))
        main_df in
    if negb (empty low_rated_orders) then
      [rating_insight (len low_rated_orders)]
    else []
  else [].

(** ** Notions the statements use *)

(** Number of rows passing a test. *)
Definition count_rows (p : Row -> bool) (l : list Row) : Z :=
  Z.of_nat (List.length (filter p l)).

Definition status_is (s : string) (r : Row) : bool :=
  str_eq (Delivery_Status (order r)) s.

(** [100 * count / total], the rate as the documentation words it. *)
Definition rate_of (p : Row -> bool) (l : list Row) : Q :=
  100 * inject_Z (count_rows p l) / Qlen l.

(** A value read from the KPI dict is the number [q]. *)
Definition is_number (v : option value) (q : Q) : Prop :=
  exists w x, v = Some w /\ number w = Some x /\ x == q.

(** The insights of a list that carry a given title. *)
Definition titled (t : string) (l : list Insight) : list Insight :=
  filter (fun i => String.eqb (title i) t) l.

(** Row [r] has a cost strictly above the 90th percentile of the table. *)
Definition above_p90 (df : DataFrame) (r : Row) : Prop :=
  exists c q, Total_Cost r = Some c /\ p90 df = Some q /\ q < c.

(** The test one categorical dimension contributes: membership in the
    accepted values when some were selected and the column exists, and
    nothing otherwise. *)
Definition category_ok (label : string) (accepted : list cell)
    (get : Order -> cell) (cols : list string) (r : Row) : bool :=
  if truthy accepted && has_col label cols then isin accepted (get (order r))
  else true.

(** The test the date dimension contributes: the inclusive range when both
    ends were given and the column exists. *)
Definition date_ok (s : FilterSpec) (cols : list string) (r : Row) : bool :=
  if has_col "Order_Date" cols then
    match date_range s with
    | [d0; d1] => between d0 d1 (Order_Date (order r))
    | _ => true
    end
  else true.

(** The conjunction of the active tests. *)
Definition satisfies (s : FilterSpec) (cols : list string) (r : Row) : bool :=
  date_ok s cols r
  && category_ok "Carrier" (map Some (carriers s)) Carrier cols r
  && category_ok "Priority" (priorities s) Priority cols r
  && category_ok "Customer_Segment" (segments s) Customer_Segment cols r.

(** Two specifications differing in the carrier selection only. *)
Definition no_selection : FilterSpec :=
  {| date_range := [1%Z; 4%Z]; carriers := [];
     priorities := [Some "High"]; segments := [Some "SMB"] |}.

Definition one_carrier : FilterSpec :=
  {| date_range := [1%Z; 4%Z]; carriers := ["BlueDart"];
     priorities := [Some "High"]; segments := [Some "SMB"] |}.

Definition both_carriers : FilterSpec :=
  {| date_range := [1%Z; 4%Z]; carriers := ["BlueDart"; "Delhivery"];
     priorities := [Some "High"]; segments := [Some "SMB"] |}.

(** ** The KPI row of the dashboard tab (lines 171-187) *)

(** [d[k]] *)
Definition dict_index (k : string) (d : dict) : result value :=
  match dict_get k d with
  | Some v => Ok v
  | None => Raise (KeyError k)
  end.

(** [v - k] for an integer literal [k]: an int stays an int, a float
    stays a float and NaN stays NaN. *)
Definition value_minus (v : value) (k : Z) : value :=
  match v with
  | VInt z => VInt (z - k)
  | VFloat x => VFloat (nan_sub x (Some (inject_Z k)))
  end.

(** [v > 0]; False for NaN. *)
Definition value_positive (v : value) : bool :=
  match v with
  | VInt z => (0 <? z)%Z
  | VFloat (Some q) => Qlt_bool 0 q
  | VFloat None => false
  end.

(** The format specifications the metric texts use. *)
Inductive format_spec :=
  | Thousands            (* [:,] *)
  | OneDecimal           (* [:.1f] *)
  | ThousandsNoDecimal.  (* [:,.0f] *)

Inductive fragment :=
  | Text (s : string)
  | Field (v : value) (f : format_spec).

(** One [st.metric(label, value, delta=...)] call. *)
Record Metric := mkMetric {
  metric_label : string;
  metric_value : list fragment;
  metric_delta : option (list fragment)
}.

(** Lines 171-187: the five metrics, in the order they are drawn.  The
    dict is not modified in between, so each key is looked up once. *)
Definition kpi_row (main_df : DataFrame) : result (list Metric) :=
  kpis <- create_kpi_metrics (Some main_df) ;;
  total_orders <- dict_index "total_orders" kpis ;;
  on_time_rate <- dict_index "on_time_rate" kpis ;;
  avg_rating <- dict_index "avg_rating" kpis ;;
  avg_cost <- dict_index "avg_cost" kpis ;;
  severely_delayed_rate <- dict_index "severely_delayed_rate" kpis ;;
  Ok [ {| metric_label := "Total Orders";
          metric_value := [Field total_orders Thousands];
          metric_delta := None |};
       {| metric_label := "On-Time Rate";
          metric_value := [Field on_time_rate OneDecimal; Text "%"];
          metric_delta :=
            if value_positive on_time_rate then
              Some [Field (value_minus on_time_rate 75) OneDecimal; Text "%"]
            else None |};
       {| metric_label := "Avg Rating";
          metric_value := [Field avg_rating OneDecimal; Text "/5"];
          metric_delta :=
            if value_positive avg_rating then
              Some [Field (value_minus avg_rating 4) OneDecimal]
            else None |};
       {| metric_label := "Avg Cost/Order";
          metric_value :=
            if value_positive avg_cost then
              [Text "₹"; Field avg_cost ThousandsNoDecimal]
            else [Text "N/A"];
          metric_delta := None |};
       {| metric_label := "Severe Delays";
          metric_value := [Field severely_delayed_rate OneDecimal; Text "%"];
          metric_delta :=
            if value_positive severely_delayed_rate then
              Some [Field (value_minus severely_delayed_rate 10) OneDecimal;
                    Text "%"]
            else None |} ].

(** ** The inventory tab (lines 317-341) *)

(** [Series.sum()]: NaN cells are skipped; the sum of no value is 0. *)
Definition series_sum (xs : list num) : Q := Qsum (dropna xs).


Record Warehouse := mkWarehouse {
  Location : cell;
  Current_Stock_Units : num;
  Reorder_Level : num;
  Storage_Cost_per_Unit : num
}.

Record WarehouseFrame := mkWF {
  wcolumns : list string;
  wrows : list Warehouse
}.

Definition wempty (w : WarehouseFrame) : bool :=
  match wrows w, wcolumns w with
  | [], _ => true
  | _, [] => true
  | _, _ => false
  end.

Fixpoint dropna_cells (xs : list cell) : list string :=
  match xs with
  | [] => []
  | Some x :: t => x :: dropna_cells t
  | None :: t => dropna_cells t
  end.

Fixpoint insert_key (k : string) (l : list string) : list string :=
  match l with
  | [] => [k]
  | y :: t => if String.leb k y then k :: l else y :: insert_key k t
  end.

Fixpoint sort_keys (l : list string) : list string :=
  match l with
  | [] => []
  | k :: t => insert_key k (sort_keys t)
  end.

(** The group labels of [groupby]: the distinct non-null keys, sorted. *)
Definition group_keys (keys : list cell) : list string :=
  sort_keys (nodup string_dec (dropna_cells keys)).

(** [frame.groupby(key)]: one group per label, holding the rows with that
    key in their order; rows with a NaN key are in no group. *)
Definition groupby {R} (key : R -> cell) (l : list R)
    : list (string * list R) :=
  map (fun k => (k, filter (fun r => str_eq (key r) k) l))
      (group_keys (map key l)).

(** The lambda of line 338. *)
Definition stock_status (x : Warehouse) : string :=
  if nan_le (Current_Stock_Units x) (Reorder_Level x) then "Low Stock"
  else "Adequate".

Record InventoryTab := mkInventory {
  location_stock : list (string * Q);
  location_costs : list (string * num);
  Stock_Status : list string
}.

(** [frame.groupby('Location')[column]]: the key is looked up first, then
    the column; either failure is a [KeyError] naming the missing
    column. *)
Definition wgroupby (column : string) (w : WarehouseFrame)
    : result (list (string * list Warehouse)) :=
  if has_col "Location" (wcolumns w) then
    if has_col column (wcolumns w) then Ok (groupby Location (wrows w))
    else Raise (KeyError column)
  else Raise (KeyError "Location").

(** [x['column']] inside the row-wise lambda; the frame has a row here. *)
Definition wcolumn (column : string) (w : WarehouseFrame) : result unit :=
  if has_col column (wcolumns w) then Ok tt else Raise (KeyError column).

(** Lines 317-339; [None] when the tab body is skipped. *)
Definition inventory_tab (warehouse_df : option WarehouseFrame)
    : result (option InventoryTab) :=
  match warehouse_df with
  | None => Ok None
  | Some w =>
    if negb (wempty w) then
      stock_groups <- wgroupby "Current_Stock_Units" w ;;
      cost_groups <- wgroupby "Storage_Cost_per_Unit" w ;;
      _ <- wcolumn "Current_Stock_Units" w ;;
      _ <- wcolumn "Reorder_Level" w ;;
      Ok (Some
        {| location_stock :=
             map (fun g => (fst g,
                            series_sum (map Current_Stock_Units (snd g))))
                 stock_groups;
           location_costs :=
             map (fun g => (fst g, mean (map Storage_Cost_per_Unit (snd g))))
                 cost_groups;
           Stock_Status := map stock_status (wrows w) |})
    else Ok None
  end.

(** ** More sample data and notions *)

Definition sample_warehouse : WarehouseFrame :=
  {| wcolumns := ["Location"; "Current_Stock_Units"; "Reorder_Level";
                  "Storage_Cost_per_Unit"];
     wrows :=
       [ {| Location := Some "Pune"; Current_Stock_Units := Some 40;
            Reorder_Level := Some 50; Storage_Cost_per_Unit := Some 2 |};
         {| Location := Some "Delhi"; Current_Stock_Units := Some 90;
            Reorder_Level := Some 50; Storage_Cost_per_Unit := Some 3 |};
         {| Location := Some "Pune"; Current_Stock_Units := Some 10;
            Reorder_Level := None; Storage_Cost_per_Unit := None |};
         {| Location := None; Current_Stock_Units := Some 7;
            Reorder_Level := Some 9; Storage_Cost_per_Unit := Some 1 |} ] |}.

(** Row [r] has a rating that is a number not above 2. *)
Definition low_rated (r : Row) : Prop :=
  exists x, Customer_Rating (order r) = Some x /\ x <= 2.

(** The sum of a numeric cell column restricted to the rows whose key is
    not NaN. *)
Definition keyed_sum {R} (key : R -> cell) (f : R -> num) (l : list R) : Q :=
  series_sum
    (map f (filter (fun r => match key r with Some _ => true | None => false end)
                   l)).

(** ** The two rates on binary64 floats *)

(** A Python [int] converted to float64; exact below 2^53. *)
Definition f64_of_int (z : Z) : PrimFloat.float :=
  PrimFloat.of_uint63 (Uint63.of_Z z).

(** [count / total_orders * 100] as lines 98 and 101 evaluate it: both
    integers are converted, divided as floats, and the quotient is
    multiplied by 100.0, each operation rounding to nearest. *)
Definition percent_f64 (count total : Z) : PrimFloat.float :=
  PrimFloat.mul (PrimFloat.div (f64_of_int count) (f64_of_int total))
                (f64_of_int 100).

(** The float stored under [on_time_rate] for a table with a row. *)
Definition on_time_rate_f64 (df : DataFrame) : PrimFloat.float :=
  percent_f64 (bsum (map On_Time (rows df))) (len df).

(** The float stored under [severely_delayed_rate] for a table with a
    row. *)
Definition severely_delayed_rate_f64 (df : DataFrame) : PrimFloat.float :=
  percent_f64
    (bsum (map (fun c => str_eq c "Severely-Delayed")
               (map (fun r => Delivery_Status (order r)) (rows df))))
    (len df).

(** The rational a finite float is exactly. *)
Definition f64_exact (x : PrimFloat.float) : option Q :=
  match FloatOps.Prim2SF x with
  | SpecFloat.S754_zero _ => Some 0
  | SpecFloat.S754_finite sign m e =>
      Some ((if sign then - (1) else 1) * inject_Z (Z.pos m) * 2 ^ e)
  | _ => None
  end.

(** Eleven orders, two delivered on time and nine severely delayed. *)
Definition eleven_orders : Merged :=
  {| mcolumns := all_columns;
     mrows :=
       map (fun id => sample_order id 1 "BlueDart" "On-Time" (Some 100)
                        (Some 5))
           ["O01"; "O02"]
       ++ map (fun id => sample_order id 2 "Delhivery" "Severely-Delayed"
                           (Some 100) (Some 3))
              ["O03"; "O04"; "O05"; "O06"; "O07"; "O08"; "O09"; "O10";
               "O11"] |}.

Definition eleven_df : DataFrame :=
  {| columns := columns sample_df;
     rows := map derive_row (mrows eleven_orders) |}.

(** A date range and nothing selected in the three lists. *)
Definition dates_only : FilterSpec :=
  {| date_range := [1%Z; 4%Z]; carriers := []; priorities := [];
     segments := [] |}.

(** ** Derived columns: [Total_Cost] and [On_Time] *)

Lemma load_data_rows m df :
  load_data m = Some df -> rows df = map derive_row (mrows m).
Proof.
  unfold load_data. destruct (forallb _ _); [|discriminate].
  intros H. injection H as <-. reflexivity.
Qed.

Lemma nan_add_some a b c :
  nan_add a b = Some c -> exists x y, a = Some x /\ b = Some y /\ c = x + y.
Proof.
  destruct a as [x|], b as [y|]; simpl; try discriminate.
  intros H. injection H as <-. now exists x, y.
Qed.

Lemma total_cost_all_present o :
  Forall (fun c => c <> None) (cost_components o) ->
  exists c, total_cost o = Some c /\ c == Qsum (dropna (cost_components o)).
Proof.
  unfold cost_components, total_cost. intros H.
  repeat match goal with
  | H : Forall _ (_ :: _) |- _ => inversion H; clear H; subst
  end.
  destruct (Fuel_Cost o), (Labor_Cost o), (Vehicle_Maintenance o),
    (Insurance o), (Packaging_Cost o), (Technology_Platform_Fee o),
    (Other_Overhead o); try congruence.
  simpl. eexists. split; [reflexivity|]. ring.
Qed.

Lemma total_cost_some_missing o :
  Exists (fun c => c = None) (cost_components o) -> total_cost o = None.
Proof.
  unfold cost_components, total_cost. intros H.
  destruct (Fuel_Cost o), (Labor_Cost o), (Vehicle_Maintenance o),
    (Insurance o), (Packaging_Cost o), (Technology_Platform_Fee o),
    (Other_Overhead o); try reflexivity.
  exfalso.
  repeat match goal with
  | H : Exists _ (_ :: _) |- _ => inversion H; clear H; subst
  | H : Exists _ [] |- _ => inversion H
  | H : Some _ = None |- _ => discriminate H
  end.
Qed.

(** C2.  In the table [load_data] returns, row [i] is built from order [i]
    of the merged table; when all seven cost components of that order are
    present its [Total_Cost] is their sum, and when at least one is NaN its
    [Total_Cost] is NaN (not a sum with the gap counted as zero). *)
Theorem total_cost_additive_or_nan m df i o :
  load_data m = Some df ->
  nth_error (mrows m) i = Some o ->
  exists r,
    nth_error (rows df) i = Some r /\ order r = o /\
    (Forall (fun c => c <> None) (cost_components o) ->
     exists c, Total_Cost r = Some c /\
               c == Qsum (dropna (cost_components o))) /\
    (Exists (fun c => c = None) (cost_components o) ->
     Total_Cost r = None).
Proof.
  intros Hl Hi. rewrite (load_data_rows _ _ Hl).
  exists (derive_row o). split.
  - rewrite nth_error_map, Hi. reflexivity.
  - split; [reflexivity|]. split; simpl.
    + apply total_cost_all_present.
    + apply total_cost_some_missing.
Qed.

Lemma total_cost_additive_or_nan_witness :
  exists r,
    nth_error (rows sample_df) 0 = Some r /\
    order r = sample_order "O1" 1 "BlueDart" "On-Time" (Some 100) (Some 5) /\
    (Forall (fun c => c <> None)
       (cost_components
          (sample_order "O1" 1 "BlueDart" "On-Time" (Some 100) (Some 5))) ->
     exists c, Total_Cost r = Some c /\
       c == Qsum (dropna (cost_components
          (sample_order "O1" 1 "BlueDart" "On-Time" (Some 100) (Some 5))))) /\
    (Exists (fun c => c = None)
       (cost_components
          (sample_order "O1" 1 "BlueDart" "On-Time" (Some 100) (Some 5))) ->
     Total_Cost r = None).
Proof.
  apply (total_cost_additive_or_nan sample_merged sample_df 0%nat);
    reflexivity.
Defined.

(** C3.  In the table [load_data] returns, [On_Time] of a row is true
    exactly when the order's [Delivery_Status] is the string "On-Time";
    any other order with the same status gets the same [On_Time], whatever
    its promised and actual delivery days are. *)
Theorem on_time_iff_status m df i o :
  load_data m = Some df ->
  nth_error (mrows m) i = Some o ->
  exists r,
    nth_error (rows df) i = Some r /\ order r = o /\
    (On_Time r = true <-> Delivery_Status o = Some "On-Time") /\
    (forall o', Delivery_Status o' = Delivery_Status o ->
                On_Time (derive_row o') = On_Time r).
Proof.
  intros Hl Hi. rewrite (load_data_rows _ _ Hl).
  exists (derive_row o). split.
  - rewrite nth_error_map, Hi. reflexivity.
  - split; [reflexivity|]. simpl. split.
    + destruct (Delivery_Status o) as [s|]; simpl.
      * rewrite String.eqb_eq. split; congruence.
      * split; discriminate.
    + intros o' ->. reflexivity.
Qed.

Lemma on_time_iff_status_witness :
  exists r,
    nth_error (rows sample_df) 2 = Some r /\
    order r = sample_order "O3" 3 "Delhivery" "Delayed" None (Some 2) /\
    (On_Time r = true <->
     Delivery_Status (sample_order "O3" 3 "Delhivery" "Delayed" None (Some 2))
       = Some "On-Time") /\
    (forall o',
       Delivery_Status o' =
         Delivery_Status
           (sample_order "O3" 3 "Delhivery" "Delayed" None (Some 2)) ->
       On_Time (derive_row o') = On_Time r).
Proof.
  apply (on_time_iff_status sample_merged sample_df 2%nat); reflexivity.
Defined.

(** ** [create_kpi_metrics] *)

(** C1.  On a table with zero rows [create_kpi_metrics] returns the empty
    dict: it has no [total_orders], [on_time_rate] or
    [severely_delayed_rate] entry, so the lookups [main] performs at lines
    176-187 raise [KeyError]. *)
Theorem kpi_of_empty_table_is_empty_dict cols :
  create_kpi_metrics (Some {| columns := cols; rows := [] |}) = Ok [] /\
  dict_get "total_orders" [] = None /\
  dict_get "on_time_rate" [] = None /\
  dict_get "severely_delayed_rate" [] = None.
Proof. repeat split. Qed.

Lemma bsum_map (f : Row -> bool) l : bsum (map f l) = count_rows f l.
Proof.
  unfold bsum, count_rows. f_equal.
  rewrite filter_map_swap, length_map. reflexivity.
Qed.

Lemma count_rows_bounds p l :
  (0 <= count_rows p l <= Z.of_nat (List.length l))%Z.
Proof.
  unfold count_rows. pose proof (filter_length_le p l). lia.
Qed.

Lemma percent_rate_of p l :
  l <> [] ->
  percent (count_rows p l) (Z.of_nat (List.length l)) == rate_of p l.
Proof.
  intros Hl. unfold percent, rate_of, Qlen. field.
  destruct l; [congruence|]. simpl List.length.
  rewrite Nat2Z.inj_succ. unfold Qeq. simpl. lia.
Qed.

Lemma Qlen_pos {A} (l : list A) : l <> [] -> 0 < Qlen l.
Proof.
  intros Hl. unfold Qlen. destruct l; [congruence|].
  simpl List.length. rewrite Nat2Z.inj_succ.
  change 0 with (inject_Z 0). rewrite <- Zlt_Qlt. lia.
Qed.

Lemma rate_of_bounds p l : l <> [] -> 0 <= rate_of p l <= 100.
Proof.
  intros Hl. pose proof (Qlen_pos l Hl) as Hpos.
  pose proof (count_rows_bounds p l) as [H0 H1].
  assert (0 <= inject_Z (count_rows p l)) as Hc0.
  { change 0 with (inject_Z 0). rewrite <- Zle_Qle. exact H0. }
  assert (inject_Z (count_rows p l) <= Qlen l) as Hc1.
  { unfold Qlen. rewrite <- Zle_Qle. exact H1. }
  unfold rate_of. split.
  - apply Qle_shift_div_l; [exact Hpos|]. lra.
  - apply Qle_shift_div_r; [exact Hpos|]. lra.
Qed.

Lemma empty_false df c :
  rows df <> [] -> has_col c (columns df) = true -> empty df = false.
Proof.
  unfold empty. destruct (rows df); [congruence|].
  destruct (columns df); [discriminate|]. reflexivity.
Qed.

Lemma len_pos df : rows df <> [] -> (0 <? len df)%Z = true.
Proof.
  intros H. apply Z.ltb_lt. unfold len.
  destruct (rows df); [congruence|]. simpl List.length. lia.
Qed.

(** What [create_kpi_metrics] returns when nothing raises. *)
Lemma create_kpi_metrics_nonempty df :
  rows df <> [] ->
  has_col "On_Time" (columns df) = true ->
  has_col "Delivery_Status" (columns df) = true ->
  create_kpi_metrics (Some df) =
    Ok [("total_orders", VInt (len df));
        ("on_time_rate",
         VFloat (Some (percent (count_rows On_Time (rows df)) (len df))));
        ("avg_rating",
         if has_col "Customer_Rating" (columns df)
         then VFloat (mean (map (fun r => Customer_Rating (order r)) (rows df)))
         else VInt 0);
        ("avg_cost",
         if has_col "Total_Cost" (columns df)
         then VFloat (mean (map Total_Cost (rows df)))
         else VInt 0);
        ("severely_delayed_rate",
         VFloat (Some (percent
                         (count_rows (status_is "Severely-Delayed") (rows df))
                         (len df))))].
Proof.
  intros Hr Hon Hst. unfold create_kpi_metrics, getitem.
  rewrite (empty_false df _ Hr Hon), (len_pos df Hr), Hon, Hst.
  rewrite <- !bsum_map.
  unfold status_is.
  rewrite <- (map_map (fun r => Delivery_Status (order r))
                      (fun c => str_eq c "Severely-Delayed")).
  destruct (has_col "Customer_Rating" (columns df));
    destruct (has_col "Total_Cost" (columns df)); reflexivity.
Qed.

(** C9.  For a table with at least one row, [create_kpi_metrics] returns a
    dict whose [total_orders] is the row count, whose [on_time_rate] is
    100 times the number of rows with [On_Time] true divided by the row
    count, whose [severely_delayed_rate] is the same with the rows of
    status "Severely-Delayed", and both rates lie between 0 and 100. *)
Theorem kpi_rates_formula_and_bounds df :
  rows df <> [] ->
  has_col "On_Time" (columns df) = true ->
  has_col "Delivery_Status" (columns df) = true ->
  exists d on_time_rate severely_delayed_rate,
    create_kpi_metrics (Some df) = Ok d /\
    dict_get "total_orders" d = Some (VInt (Z.of_nat (List.length (rows df)))) /\
    dict_get "on_time_rate" d = Some (VFloat (Some on_time_rate)) /\
    dict_get "severely_delayed_rate" d
      = Some (VFloat (Some severely_delayed_rate)) /\
    on_time_rate == rate_of On_Time (rows df) /\
    severely_delayed_rate
      == rate_of (status_is "Severely-Delayed") (rows df) /\
    0 <= on_time_rate <= 100 /\
    0 <= severely_delayed_rate <= 100.
Proof.
  intros Hr Hon Hst.
  rewrite (create_kpi_metrics_nonempty df Hr Hon Hst).
  do 3 eexists. split; [reflexivity|].
  split; [reflexivity|]. split; [reflexivity|]. split; [reflexivity|].
  unfold len. rewrite !percent_rate_of by exact Hr.
  split; [reflexivity|]. split; [reflexivity|].
  split; apply rate_of_bounds; exact Hr.
Qed.

Lemma kpi_rates_formula_and_bounds_witness :
  exists d on_time_rate severely_delayed_rate,
    create_kpi_metrics (Some sample_df) = Ok d /\
    dict_get "total_orders" d
      = Some (VInt (Z.of_nat (List.length (rows sample_df)))) /\
    dict_get "on_time_rate" d = Some (VFloat (Some on_time_rate)) /\
    dict_get "severely_delayed_rate" d
      = Some (VFloat (Some severely_delayed_rate)) /\
    on_time_rate == rate_of On_Time (rows sample_df) /\
    severely_delayed_rate
      == rate_of (status_is "Severely-Delayed") (rows sample_df) /\
    0 <= on_time_rate <= 100 /\
    0 <= severely_delayed_rate <= 100.
Proof.
  apply (kpi_rates_formula_and_bounds sample_df);
    [discriminate | reflexivity | reflexivity].
Defined.

(** The four-order scenario: statuses On-Time, On-Time, Delayed and
    Severely-Delayed give an on-time rate of 50 and a severe-delay rate
    of 25. *)
Example sample_rates :
  rate_of On_Time (rows sample_df) == 50 /\
  rate_of (status_is "Severely-Delayed") (rows sample_df) == 25.
Proof. split; reflexivity. Qed.

(** C4 fails as stated: in a table whose [Customer_Rating] column is
    present and holds only NaN, [avg_rating] is NaN and not the number 0. *)
Lemma avg_of_all_null_column_is_nan :
  dropna (map (fun r => Customer_Rating (order r)) (rows no_feedback_df)) = []
  /\ exists d,
       create_kpi_metrics (Some no_feedback_df) = Ok d /\
       dict_get "avg_rating" d = Some (VFloat None) /\
       ~ is_number (dict_get "avg_rating" d) 0.
Proof.
  split; [reflexivity|]. eexists. split; [reflexivity|].
  split; [reflexivity|].
  intros (w & x & Hw & Hx & _). simpl in Hw.
  injection Hw as <-. discriminate Hx.
Qed.

Lemma mean_cases xs :
  (dropna xs = [] -> mean xs = None) /\
  (dropna xs <> [] ->
   exists m, mean xs = Some m /\ m == Qsum (dropna xs) / Qlen (dropna xs)).
Proof.
  unfold mean. destruct (dropna xs) as [|v vs].
  - split; [reflexivity | congruence].
  - split; [discriminate|]. intros _. eexists. split; reflexivity.
Qed.

(** C4, amended.  For a table with at least one row: [avg_rating] (resp.
    [avg_cost]) is the integer 0 when the table has no [Customer_Rating]
    (resp. [Total_Cost]) column; when the column is present and has a
    non-null value it is the sum of the non-null values divided by their
    number; when the column is present and has no non-null value it is
    NaN. *)
Theorem kpi_averages df :
  rows df <> [] ->
  has_col "On_Time" (columns df) = true ->
  has_col "Delivery_Status" (columns df) = true ->
  exists d avg_rating avg_cost,
    create_kpi_metrics (Some df) = Ok d /\
    dict_get "avg_rating" d = Some avg_rating /\
    dict_get "avg_cost" d = Some avg_cost /\
    let ratings := dropna (map (fun r => Customer_Rating (order r)) (rows df)) in
    let costs := dropna (map Total_Cost (rows df)) in
    (has_col "Customer_Rating" (columns df) = false -> avg_rating = VInt 0) /\
    (has_col "Customer_Rating" (columns df) = true -> ratings = [] ->
     avg_rating = VFloat None) /\
    (has_col "Customer_Rating" (columns df) = true -> ratings <> [] ->
     exists m, avg_rating = VFloat (Some m) /\ m == Qsum ratings / Qlen ratings) /\
    (has_col "Total_Cost" (columns df) = false -> avg_cost = VInt 0) /\
    (has_col "Total_Cost" (columns df) = true -> costs = [] ->
     avg_cost = VFloat None) /\
    (has_col "Total_Cost" (columns df) = true -> costs <> [] ->
     exists m, avg_cost = VFloat (Some m) /\ m == Qsum costs / Qlen costs).
Proof.
  intros Hr Hon Hst.
  rewrite (create_kpi_metrics_nonempty df Hr Hon Hst).
  do 3 eexists. split; [reflexivity|].
  split; [reflexivity|]. split; [reflexivity|]. cbv zeta.
  destruct (mean_cases (map (fun r => Customer_Rating (order r)) (rows df)))
    as [Hr0 Hr1].
  destruct (mean_cases (map Total_Cost (rows df))) as [Hc0 Hc1].
  destruct (has_col "Customer_Rating" (columns df));
    destruct (has_col "Total_Cost" (columns df));
    repeat split; intros; try discriminate;
    try (rewrite Hr0 by assumption; reflexivity);
    try (rewrite Hc0 by assumption; reflexivity);
    try (destruct Hr1 as (m & -> & Hm); [assumption|];
         exists m; split; [reflexivity | exact Hm]);
    try (destruct Hc1 as (m & -> & Hm); [assumption|];
         exists m; split; [reflexivity | exact Hm]).
Qed.

Lemma kpi_averages_witness :
  exists d avg_rating avg_cost,
    create_kpi_metrics (Some sample_df) = Ok d /\
    dict_get "avg_rating" d = Some avg_rating /\
    dict_get "avg_cost" d = Some avg_cost /\
    let ratings :=
      dropna (map (fun r => Customer_Rating (order r)) (rows sample_df)) in
    let costs := dropna (map Total_Cost (rows sample_df)) in
    (has_col "Customer_Rating" (columns sample_df) = false ->
     avg_rating = VInt 0) /\
    (has_col "Customer_Rating" (columns sample_df) = true -> ratings = [] ->
     avg_rating = VFloat None) /\
    (has_col "Customer_Rating" (columns sample_df) = true -> ratings <> [] ->
     exists m, avg_rating = VFloat (Some m) /\ m == Qsum ratings / Qlen ratings) /\
    (has_col "Total_Cost" (columns sample_df) = false -> avg_cost = VInt 0) /\
    (has_col "Total_Cost" (columns sample_df) = true -> costs = [] ->
     avg_cost = VFloat None) /\
    (has_col "Total_Cost" (columns sample_df) = true -> costs <> [] ->
     exists m, avg_cost = VFloat (Some m) /\ m == Qsum costs / Qlen costs).
Proof.
  apply (kpi_averages sample_df);
    [discriminate | reflexivity | reflexivity].
Defined.

(** On the sample the three ratings 5, 4, 2 average to 11/3: the order
    without a rating is left out of both the sum and the divisor. *)
Example sample_avg_rating :
  exists m,
    mean (map (fun r => Customer_Rating (order r)) (rows sample_df)) = Some m
    /\ m == 11 # 3.
Proof. eexists. split; reflexivity. Qed.

(** ** The filters *)

Section FilterLists.
Context {A : Type}.
Implicit Types (p q : A -> bool) (l : list A).

Lemma filter_andb p q l :
  filter q (filter p l) = filter (fun x => p x && q x) l.
Proof.
  induction l as [|x l IH]; [reflexivity|]. simpl.
  destruct (p x); simpl; [destruct (q x)|]; now rewrite IH.
Qed.

Lemma filter_true l : filter (fun _ => true) l = l.
Proof. induction l as [|x l IH]; simpl; congruence. Qed.

Lemma filter_twice p l : filter p (filter p l) = filter p l.
Proof.
  rewrite filter_andb. apply filter_ext. intros x. now destruct (p x).
Qed.

Lemma filter_length_mono p q l :
  (forall x, In x l -> p x = true -> q x = true) ->
  (List.length (filter p l) <= List.length (filter q l))%nat.
Proof.
  induction l as [|x l IH]; intros H; [apply Nat.le_refl|]. simpl.
  assert (IH' := IH (fun y Hy => H y (or_intror Hy))).
  destruct (p x) eqn:Hp.
  - rewrite (H x (or_introl eq_refl) Hp). simpl. lia.
  - destruct (q x); simpl; lia.
Qed.
End FilterLists.

Lemma DataFrame_eq a b : columns a = columns b -> rows a = rows b -> a = b.
Proof. destruct a, b. simpl. intros -> ->. reflexivity. Qed.

Lemma truthy_map {A B} (f : A -> B) l : truthy (map f l) = truthy l.
Proof. destruct l; reflexivity. Qed.

(** One conditional [select] step of [apply_filters]. *)
Lemma select_step (c : bool) mask df :
  columns (if c then select mask df else df) = columns df /\
  rows (if c then select mask df else df)
    = filter (fun r => if c then mask r else true) (rows df).
Proof.
  destruct c; simpl; split; try reflexivity.
  symmetry. apply filter_true.
Qed.

Lemma apply_filters_columns s df : columns (apply_filters s df) = columns df.
Proof.
  unfold apply_filters.
  repeat match goal with
  | |- columns (if ?c then select ?m ?d else ?d) = _ =>
      rewrite (proj1 (select_step c m d))
  end.
  destruct (has_col "Order_Date" (columns df)); [|reflexivity].
  destruct (date_range s) as [|d0 [|d1 [|? ?]]]; reflexivity.
Qed.

Lemma date_step s df :
  let df1 :=
    if has_col "Order_Date" (columns df) then
      match date_range s with
      | [d0; d1] => select (fun r => between d0 d1 (Order_Date (order r))) df
      | _ => df
      end
    else df in
  columns df1 = columns df /\
  rows df1 = filter (date_ok s (columns df)) (rows df).
Proof.
  unfold date_ok.
  destruct (has_col "Order_Date" (columns df)).
  - destruct (date_range s) as [|d0 [|d1 [|? ?]]]; simpl; split;
      try reflexivity; symmetry; apply filter_true.
  - simpl. split; [reflexivity|]. symmetry. apply filter_true.
Qed.

Lemma apply_filters_rows s df :
  rows (apply_filters s df) = filter (satisfies s (columns df)) (rows df).
Proof.
  unfold apply_filters.
  destruct (date_step s df) as [Hc1 Hr1]. cbv zeta in Hc1, Hr1.
  set (df1 := if has_col "Order_Date" (columns df) then _ else _) in *.
  repeat match goal with
  | |- context [rows (if ?c then select ?m ?d else ?d)] =>
      rewrite (proj2 (select_step c m d))
  | |- context [columns (if ?c then select ?m ?d else ?d)] =>
      rewrite (proj1 (select_step c m d))
  end.
  rewrite Hr1, Hc1, !filter_andb.
  apply filter_ext. intros r. unfold satisfies, category_ok.
  rewrite truthy_map, !andb_assoc. reflexivity.
Qed.

(** C7.  [apply_filters] keeps the columns and returns, in their order,
    exactly the rows passing the conjunction of the active tests; a
    categorical dimension with nothing selected passes every row, and so
    does the date dimension when the range does not have two ends. *)
Theorem apply_filters_is_conjunction s df :
  columns (apply_filters s df) = columns df /\
  rows (apply_filters s df) = filter (satisfies s (columns df)) (rows df) /\
  (forall r, In r (rows (apply_filters s df)) <->
             In r (rows df) /\
             date_ok s (columns df) r = true /\
             category_ok "Carrier" (map Some (carriers s)) Carrier
               (columns df) r = true /\
             category_ok "Priority" (priorities s) Priority
               (columns df) r = true /\
             category_ok "Customer_Segment" (segments s) Customer_Segment
               (columns df) r = true) /\
  (forall r, carriers s = [] ->
             category_ok "Carrier" (map Some (carriers s)) Carrier
               (columns df) r = true) /\
  (forall r, priorities s = [] ->
             category_ok "Priority" (priorities s) Priority
               (columns df) r = true) /\
  (forall r, segments s = [] ->
             category_ok "Customer_Segment" (segments s) Customer_Segment
               (columns df) r = true) /\
  (forall r, List.length (date_range s) <> 2%nat ->
             date_ok s (columns df) r = true).
Proof.
  split; [apply apply_filters_columns|].
  split; [apply apply_filters_rows|].
  split.
  { intros r. rewrite apply_filters_rows, filter_In. unfold satisfies.
    rewrite !andb_true_iff. tauto. }
  unfold category_ok, date_ok.
  repeat split; intros r H; try (rewrite H; reflexivity).
  destruct (has_col "Order_Date" (columns df)); [|reflexivity].
  destruct (date_range s) as [|d0 [|d1 [|? ?]]]; try reflexivity.
  now elim H.
Qed.

Lemma apply_filters_idempotent s df :
  apply_filters s (apply_filters s df) = apply_filters s df.
Proof.
  apply DataFrame_eq.
  - now rewrite !apply_filters_columns.
  - rewrite (apply_filters_rows s (apply_filters s df)).
    rewrite apply_filters_columns, apply_filters_rows.
    apply filter_twice.
Qed.

Lemma isin_incl (A B : list cell) c :
  incl A B -> isin A c = true -> isin B c = true.
Proof.
  unfold isin. rewrite !existsb_exists.
  intros H (x & Hx & Hc). exists x. split; [apply H, Hx | exact Hc].
Qed.

Lemma category_ok_mono label (A B : list cell) get cols r :
  incl A B -> (A = [] -> B = []) ->
  category_ok label A get cols r = true ->
  category_ok label B get cols r = true.
Proof.
  unfold category_ok. intros Hincl Hemp.
  destruct B as [|b B']; [reflexivity|].
  destruct A as [|a A']; [now specialize (Hemp eq_refl)|].
  simpl truthy. simpl andb.
  destruct (has_col label cols); [|reflexivity].
  apply isin_incl, Hincl.
Qed.

(** C8 fails as stated: with no carrier selected (a subset of any
    selection) all four sample rows are kept, while selecting one carrier
    keeps two. *)
Lemma empty_selection_is_not_smaller :
  date_range no_selection = date_range one_carrier /\
  incl (carriers no_selection) (carriers one_carrier) /\
  incl (priorities no_selection) (priorities one_carrier) /\
  incl (segments no_selection) (segments one_carrier) /\
  ~ (List.length (rows (apply_filters no_selection sample_df))
     <= List.length (rows (apply_filters one_carrier sample_df)))%nat.
Proof.
  split; [reflexivity|].
  split; [intros x []|].
  split; [apply incl_refl|].
  split; [apply incl_refl|].
  vm_compute. lia.
Qed.

(** C8, amended.  Filtering twice by the same specification equals
    filtering once; and for two specifications with the same date range,
    where each accepted set of [A] is a subset of the corresponding set of
    [B] and is empty only if that set of [B] is empty too, filtering by
    [A] keeps at most as many rows as filtering by [B]. *)
Theorem filters_idempotent_and_monotone A df :
  apply_filters A (apply_filters A df) = apply_filters A df /\
  forall B,
    date_range A = date_range B ->
    incl (carriers A) (carriers B) -> (carriers A = [] -> carriers B = []) ->
    incl (priorities A) (priorities B) ->
    (priorities A = [] -> priorities B = []) ->
    incl (segments A) (segments B) -> (segments A = [] -> segments B = []) ->
    (List.length (rows (apply_filters A df))
     <= List.length (rows (apply_filters B df)))%nat.
Proof.
  split; [apply apply_filters_idempotent|].
  intros B Hd Hc Hc0 Hp Hp0 Hs Hs0.
  rewrite !apply_filters_rows. apply filter_length_mono.
  intros r _. unfold satisfies. rewrite !andb_true_iff.
  intros [[[H1 H2] H3] H4]. repeat split.
  - unfold date_ok in *. rewrite <- Hd. exact H1.
  - revert H2. apply category_ok_mono.
    + apply incl_map, Hc.
    + intros E. apply map_eq_nil in E. now rewrite (Hc0 E).
  - revert H3. now apply category_ok_mono.
  - revert H4. now apply category_ok_mono.
Qed.

Lemma filters_idempotent_and_monotone_witness :
  apply_filters one_carrier (apply_filters one_carrier sample_df)
    = apply_filters one_carrier sample_df /\
  (List.length (rows (apply_filters one_carrier sample_df))
   <= List.length (rows (apply_filters both_carriers sample_df)))%nat.
Proof.
  destruct (filters_idempotent_and_monotone one_carrier sample_df)
    as [Hidem Hmono].
  split; [exact Hidem|].
  apply (Hmono both_carriers); try reflexivity; try discriminate;
    try apply incl_refl.
  intros x [<-|[]]. left. reflexivity.
Defined.

(** ** Rows without a delivery record *)

Lemma has_col_set_col_same c cols : has_col c (set_col c cols) = true.
Proof.
  unfold set_col. destruct (has_col c cols) eqn:E; [exact E|].
  unfold has_col. rewrite existsb_app. simpl.
  rewrite String.eqb_refl. apply orb_true_r.
Qed.

Lemma has_col_set_col_other c c' cols :
  has_col c cols = true -> has_col c (set_col c' cols) = true.
Proof.
  unfold set_col. intros H. destruct (has_col c' cols); [exact H|].
  unfold has_col in *. rewrite existsb_app, H. reflexivity.
Qed.

Lemma load_data_columns m df :
  load_data m = Some df ->
  has_col "On_Time" (columns df) = true /\
  has_col "Delivery_Status" (columns df) = true /\
  has_col "Total_Cost" (columns df) = true.
Proof.
  unfold load_data.
  destruct (forallb _ required_columns) eqn:E; [|discriminate].
  intros H. injection H as <-. simpl columns.
  rewrite forallb_forall in E.
  assert (has_col "Delivery_Status" (mcolumns m) = true) as Hs.
  { apply E. unfold required_columns. simpl. tauto. }
  split; [apply has_col_set_col_same|]. split.
  - now repeat apply has_col_set_col_other.
  - apply has_col_set_col_other, has_col_set_col_other,
      has_col_set_col_same.
Qed.

Lemma count_rows_disjoint p q (l : list Row) :
  (forall r, In r l -> p r = true -> q r = false) ->
  (count_rows p l + count_rows q l <= Z.of_nat (List.length l))%Z.
Proof.
  unfold count_rows. induction l as [|x l IH]; intros H; [simpl; lia|].
  assert (IH' := IH (fun y Hy => H y (or_intror Hy))).
  assert (Hx := H x (or_introl eq_refl)).
  simpl. destruct (p x).
  - rewrite (Hx eq_refl). simpl List.length. lia.
  - destruct (q x); simpl List.length; lia.
Qed.

(** Every row of a filtered [load_data] table is a derived row. *)
Lemma pipeline_rows m df s r :
  load_data m = Some df ->
  In r (rows (apply_filters s df)) ->
  exists o, r = derive_row o.
Proof.
  intros Hl Hin. rewrite apply_filters_rows in Hin.
  apply filter_In in Hin as [Hin _].
  rewrite (load_data_rows _ _ Hl) in Hin.
  apply in_map_iff in Hin as (o & <- & _). now exists o.
Qed.

Lemma derived_on_time_excludes_severe o :
  On_Time (derive_row o) = true ->
  status_is "Severely-Delayed" (derive_row o) = false.
Proof.
  unfold status_is. simpl. destruct (Delivery_Status o) as [st|]; simpl.
  - rewrite String.eqb_eq. intros ->. reflexivity.
  - discriminate.
Qed.

(** C10 fails as stated: with two orders on time and nine severely
    delayed out of eleven, the two floats the KPI call stores are
    18.181818181818183 and 81.81818181818183; their exact values add up to
    more than 100, and so does their float sum. *)
Lemma rate_sum_exceeds_100_in_float64 :
  load_data eleven_orders = Some eleven_df /\
  count_rows On_Time (rows eleven_df) = 2%Z /\
  count_rows (status_is "Severely-Delayed") (rows eleven_df) = 9%Z /\
  len eleven_df = 11%Z /\
  (exists a b,
     f64_exact (on_time_rate_f64 eleven_df) = Some a /\
     f64_exact (severely_delayed_rate_f64 eleven_df) = Some b /\
     100 < a + b) /\
  PrimFloat.ltb (f64_of_int 100)
    (PrimFloat.add (on_time_rate_f64 eleven_df)
                   (severely_delayed_rate_f64 eleven_df)) = true.
Proof.
  split; [reflexivity|]. split; [reflexivity|]. split; [reflexivity|].
  split; [reflexivity|]. split.
  - eexists _, _. split; [vm_compute; reflexivity|].
    split; [vm_compute; reflexivity|]. vm_compute. reflexivity.
  - vm_compute. reflexivity.
Qed.

(** C10, amended.  Take any table [load_data] produces, filtered by any
    specification.  A row whose [Delivery_Status] is NaN has [On_Time]
    false and fails the "Severely-Delayed" test, so it is in neither
    numerator, while [total_orders] counts every row; no row passes both
    tests, so the two numerators add up to at most the row count; the KPI
    call returns a dict, which for a table with rows holds the row count
    and both rates as given by those counts. *)
Theorem null_status_rows_and_numerators m df s :
  load_data m = Some df ->
  let t := apply_filters s df in
  (forall r, In r (rows t) -> Delivery_Status (order r) = None ->
             On_Time r = false /\ status_is "Severely-Delayed" r = false) /\
  (forall r, In r (rows t) -> On_Time r = true ->
             status_is "Severely-Delayed" r = false) /\
  (count_rows On_Time (rows t)
   + count_rows (status_is "Severely-Delayed") (rows t)
   <= Z.of_nat (List.length (rows t)))%Z /\
  exists d,
    create_kpi_metrics (Some t) = Ok d /\
    (rows t <> [] ->
     dict_get "total_orders" d
       = Some (VInt (Z.of_nat (List.length (rows t)))) /\
     is_number (dict_get "on_time_rate" d) (rate_of On_Time (rows t)) /\
     is_number (dict_get "severely_delayed_rate" d)
       (rate_of (status_is "Severely-Delayed") (rows t))).
Proof.
  intros Hl t.
  assert (forall r, In r (rows t) -> On_Time r = true ->
                    status_is "Severely-Delayed" r = false) as Hdisj.
  { intros r Hin. destruct (pipeline_rows m df s r Hl Hin) as [o ->].
    apply derived_on_time_excludes_severe. }
  split.
  { intros r Hin Hnull. destruct (pipeline_rows m df s r Hl Hin) as [o ->].
    unfold status_is. simpl in *. rewrite Hnull. split; reflexivity. }
  split; [exact Hdisj|].
  split; [apply count_rows_disjoint, Hdisj|].
  destruct (load_data_columns m df Hl) as (Hon & Hst & _).
  assert (columns t = columns df) as Hcols by apply apply_filters_columns.
  destruct (rows t) as [|r0 rs] eqn:Hrows.
  - exists []. split.
    + unfold create_kpi_metrics, empty. rewrite Hrows. reflexivity.
    + congruence.
  - assert (rows t <> []) as Hne by (rewrite Hrows; discriminate).
    rewrite <- Hcols in Hon, Hst.
    eexists. split; [apply (create_kpi_metrics_nonempty t Hne Hon Hst)|].
    rewrite <- Hrows. intros _. split; [reflexivity|].
    split; do 2 eexists; (split; [reflexivity|]);
      (split; [reflexivity|]); apply percent_rate_of, Hne.
Qed.

Lemma null_status_rows_and_numerators_witness :
  let t := apply_filters dates_only df_with_gap in
  (forall r, In r (rows t) -> Delivery_Status (order r) = None ->
             On_Time r = false /\ status_is "Severely-Delayed" r = false) /\
  (forall r, In r (rows t) -> On_Time r = true ->
             status_is "Severely-Delayed" r = false) /\
  (count_rows On_Time (rows t)
   + count_rows (status_is "Severely-Delayed") (rows t)
   <= Z.of_nat (List.length (rows t)))%Z /\
  exists d,
    create_kpi_metrics (Some t) = Ok d /\
    (rows t <> [] ->
     dict_get "total_orders" d
       = Some (VInt (Z.of_nat (List.length (rows t)))) /\
     is_number (dict_get "on_time_rate" d) (rate_of On_Time (rows t)) /\
     is_number (dict_get "severely_delayed_rate" d)
       (rate_of (status_is "Severely-Delayed") (rows t))).
Proof.
  apply (null_status_rows_and_numerators merged_with_gap df_with_gap
           dates_only).
  reflexivity.
Defined.

(** The filtered table of the witness keeps the order without a delivery
    record: it is the fifth of five rows, is not on time and not severely
    delayed, and is counted in [total_orders]. *)
Example unmatched_order_is_kept :
  nth_error (rows (apply_filters dates_only df_with_gap)) 4
    = Some (derive_row (unmatched_order "O5")) /\
  Delivery_Status (unmatched_order "O5") = None /\
  exists d,
    create_kpi_metrics (Some (apply_filters dates_only df_with_gap)) = Ok d
    /\ dict_get "total_orders" d = Some (VInt 5).
Proof.
  split; [reflexivity|]. split; [reflexivity|].
  eexists. split; reflexivity.
Qed.

(** With the unmatched order the sample has five rows, two of them on
    time and one severely delayed: the rates are 40 and 20. *)
Example rates_with_gap :
  exists d,
    create_kpi_metrics (Some df_with_gap) = Ok d /\
    dict_get "total_orders" d = Some (VInt 5) /\
    is_number (dict_get "on_time_rate" d) 40 /\
    is_number (dict_get "severely_delayed_rate" d) 20.
Proof.
  eexists. split; [reflexivity|]. split; [reflexivity|].
  split; do 2 eexists; (split; [reflexivity|]); split; reflexivity.
Qed.

(** ** The insight rules *)

Lemma insight_rules_parts df :
  empty df = false ->
  insight_rules df = delivery_rule df ++ cost_rule df ++ rating_rule df.
Proof.
  intros He.
  unfold insight_rules, delivery_rule, cost_rule, rating_rule, p90,
    insight_on_time_rate.
  rewrite He. cbv zeta. simpl negb. cbv iota.
  repeat match goal with
  | |- context [if ?c then _ else _] => destruct c
  end; reflexivity.
Qed.

Lemma insight_rules_empty df : empty df = true -> insight_rules df = [].
Proof. unfold insight_rules. now intros ->. Qed.

Lemma Qlt_bool_iff x y : Qlt_bool x y = true <-> x < y.
Proof.
  unfold Qlt_bool. rewrite negb_true_iff, <- not_true_iff_false.
  rewrite Qle_bool_iff. split.
  - apply Qnot_le_lt.
  - apply Qlt_not_le.
Qed.

Lemma titled_single t i : title i <> t -> titled t [i] = [].
Proof.
  intros H. unfold titled. cbn [filter].
  destruct (String.eqb_spec (title i) t); [congruence | reflexivity].
Qed.

Lemma titled_cost_rule t df :
  t <> "Cost Optimization Opportunity" -> titled t (cost_rule df) = [].
Proof.
  intros Ht. unfold cost_rule.
  destruct (has_col _ _); [|reflexivity]. cbv zeta.
  destruct (negb _); [|reflexivity].
  apply titled_single. simpl. congruence.
Qed.

Lemma titled_rating_rule t df :
  t <> "Customer Satisfaction Risk" -> titled t (rating_rule df) = [].
Proof.
  intros Ht. unfold rating_rule.
  destruct (has_col _ _); [|reflexivity]. cbv zeta.
  destruct (negb _); [|reflexivity].
  apply titled_single. simpl. congruence.
Qed.

Lemma titled_delivery_rule t df :
  t <> "Delivery Performance Issue" -> titled t (delivery_rule df) = [].
Proof.
  intros Ht. unfold delivery_rule.
  destruct (Qlt_bool _ _); [|reflexivity].
  apply titled_single. simpl. congruence.
Qed.

Lemma titled_app t l1 l2 : titled t (l1 ++ l2) = titled t l1 ++ titled t l2.
Proof. apply filter_app. Qed.

Lemma insight_on_time_rate_spec df :
  rows df <> [] -> has_col "On_Time" (columns df) = true ->
  insight_on_time_rate df == rate_of On_Time (rows df).
Proof.
  intros Hr Hon. unfold insight_on_time_rate. rewrite Hon, bsum_map.
  apply (percent_rate_of On_Time (rows df) Hr).
Qed.

(** C5.  For a table with at least one row, whose on-time rate is 100
    times the rows with [On_Time] true over all rows: when that rate is
    below 75 the insight list holds exactly one insight titled "Delivery
    Performance Issue", a warning whose description has the rate as a
    formatted field; when the rate is 75 or more the list holds no insight
    with that title. *)
Theorem delivery_issue_rule df :
  rows df <> [] ->
  has_col "On_Time" (columns df) = true ->
  (rate_of On_Time (rows df) < 75 ->
   exists i x,
     titled "Delivery Performance Issue" (insight_rules df) = [i] /\
     i = delivery_insight x /\
     type i = warning /\
     In (Fixed1 x) (description i) /\
     x == rate_of On_Time (rows df)) /\
  (75 <= rate_of On_Time (rows df) ->
   titled "Delivery Performance Issue" (insight_rules df) = []).
Proof.
  intros Hr Hon.
  pose proof (insight_on_time_rate_spec df Hr Hon) as Hrate.
  rewrite (insight_rules_parts df (empty_false df _ Hr Hon)).
  rewrite !titled_app, titled_cost_rule, titled_rating_rule, !app_nil_r
    by discriminate.
  unfold delivery_rule.
  destruct (Qlt_bool (insight_on_time_rate df) 75) eqn:E.
  - apply Qlt_bool_iff in E. split.
    + intros _. exists (delivery_insight (insight_on_time_rate df)),
        (insight_on_time_rate df).
      split; [reflexivity|]. split; [reflexivity|]. split; [reflexivity|].
      split; [simpl; tauto | exact Hrate].
    + intros H. rewrite Hrate in E. exfalso. lra.
  - split; [|reflexivity].
    intros H. rewrite <- Hrate in H. apply Qlt_bool_iff in H. congruence.
Qed.

Lemma delivery_issue_rule_witness :
  (rate_of On_Time (rows sample_df) < 75 ->
   exists i x,
     titled "Delivery Performance Issue" (insight_rules sample_df) = [i] /\
     i = delivery_insight x /\
     type i = warning /\
     In (Fixed1 x) (description i) /\
     x == rate_of On_Time (rows sample_df)) /\
  (75 <= rate_of On_Time (rows sample_df) ->
   titled "Delivery Performance Issue" (insight_rules sample_df) = []).
Proof.
  apply (delivery_issue_rule sample_df); [discriminate | reflexivity].
Defined.

(** ** The 90th percentile *)

Section Quantile.

Lemma insert_In x a l : In x (insert a l) <-> x = a \/ In x l.
Proof.
  induction l as [|y l IH]; simpl.
  - intuition congruence.
  - destruct (Qle_bool a y); simpl; [|rewrite IH]; intuition congruence.
Qed.

Lemma sort_In x l : In x (sort l) <-> In x l.
Proof.
  induction l as [|y l IH]; simpl; [tauto|].
  rewrite insert_In, IH. intuition congruence.
Qed.

Lemma insert_length a l :
  List.length (insert a l) = S (List.length l).
Proof.
  induction l as [|y l IH]; simpl; [reflexivity|].
  destruct (Qle_bool a y); simpl; congruence.
Qed.

Lemma sort_length l : List.length (sort l) = List.length l.
Proof.
  induction l as [|y l IH]; simpl; [reflexivity|].
  now rewrite insert_length, IH.
Qed.

Lemma insert_sorted a l :
  StronglySorted Qle l -> StronglySorted Qle (insert a l).
Proof.
  induction 1 as [|y l Hs IH Hy]; simpl.
  - constructor; constructor.
  - destruct (Qle_bool a y) eqn:E.
    + apply Qle_bool_iff in E. constructor.
      * constructor; assumption.
      * constructor; [exact E|].
        apply Forall_forall. intros z Hz.
        rewrite Forall_forall in Hy.
        apply Qle_trans with y; [exact E | apply Hy, Hz].
    + assert (y <= a) as Hya.
      { apply Qlt_le_weak, Qnot_le_lt. rewrite <- Qle_bool_iff.
        congruence. }
      constructor; [exact IH|].
      apply Forall_forall. intros z Hz. apply insert_In in Hz.
      destruct Hz as [->|Hz]; [exact Hya|].
      rewrite Forall_forall in Hy. apply Hy, Hz.
Qed.

Lemma sort_sorted l : StronglySorted Qle (sort l).
Proof.
  induction l as [|y l IH]; simpl; [constructor|].
  apply insert_sorted, IH.
Qed.

Lemma sorted_nth_le l d :
  StronglySorted Qle l ->
  forall i j, (i <= j < List.length l)%nat -> nth i l d <= nth j l d.
Proof.
  induction 1 as [|y l Hs IH Hy]; intros i j Hij; simpl in Hij; [lia|].
  destruct i as [|i], j as [|j]; simpl; try lia.
  - apply Qle_refl.
  - rewrite Forall_forall in Hy. apply Hy, nth_In. lia.
  - apply IH. lia.
Qed.

(** Between two ordered values, interpolation stays in between. *)
Lemma interpolation_bounds a b f :
  a <= b -> 0 <= f <= 1 -> a <= a + (b - a) * f <= b.
Proof. intros Hab [Hf0 Hf1]. split; nra. Qed.

(** With a non-null value present the quantile is a number lying
    between two of the non-null values, however few there are. *)
Lemma quantile_defined q xs :
  0 <= q <= 1 -> dropna xs <> [] ->
  exists v a b,
    quantile q xs = Some v /\
    In a (dropna xs) /\ In b (dropna xs) /\ a <= v <= b.
Proof.
  intros [Hq0 Hq1] Hne. unfold quantile.
  pose proof (sort_sorted (dropna xs)) as Hs.
  pose proof (sort_length (dropna xs)) as Hlen.
  pose proof (fun x => proj1 (sort_In x (dropna xs))) as Hin.
  destruct (sort (dropna xs)) as [|v0 vs] eqn:E.
  { destruct (dropna xs); [congruence | discriminate Hlen]. }
  cbv zeta.
  set (n := Z.of_nat (List.length (v0 :: vs))).
  set (pos := inject_Z (n - 1) * q).
  set (lo := Qfloor pos).
  set (hi := Z.min (lo + 1) (n - 1)).
  assert (1 <= n)%Z as Hn by (unfold n; simpl List.length; lia).
  assert (0 <= inject_Z (n - 1)) as Hn1.
  { change 0 with (inject_Z 0). rewrite <- Zle_Qle. lia. }
  assert (0 <= pos <= inject_Z (n - 1)) as [Hp0 Hp1]
    by (unfold pos; split; nra).
  assert (0 <= lo <= n - 1)%Z as Hlo.
  { unfold lo. split.
    - change 0%Z with (Qfloor 0). apply Qfloor_resp_le, Hp0.
    - rewrite <- (Qfloor_Z (n - 1)). apply Qfloor_resp_le, Hp1. }
  assert (lo <= hi <= n - 1)%Z as Hhi by (unfold hi; lia).
  assert (0 <= pos - inject_Z lo <= 1) as Hf.
  { pose proof (Qfloor_le pos) as H1. pose proof (Qlt_floor pos) as H2.
    fold lo in H1, H2. rewrite inject_Z_plus in H2.
    change (inject_Z 1) with 1 in H2. split; lra. }
  assert (Z.to_nat lo <= Z.to_nat hi < List.length (v0 :: vs))%nat as Hidx
    by (unfold n in *; lia).
  eexists _, (nth (Z.to_nat lo) (v0 :: vs) v0),
    (nth (Z.to_nat hi) (v0 :: vs) v0).
  split; [reflexivity|].
  split; [apply Hin, nth_In; lia|].
  split; [apply Hin, nth_In; lia|].
  apply interpolation_bounds; [|exact Hf].
  apply sorted_nth_le; assumption.
Qed.

Lemma quantile_all_null q xs : dropna xs = [] -> quantile q xs = None.
Proof. unfold quantile. now intros ->. Qed.

Lemma insert_perm a l : Permutation (insert a l) (a :: l).
Proof.
  induction l as [|y l IH]; simpl; [apply Permutation_refl|].
  destruct (Qle_bool a y); [apply Permutation_refl|].
  apply Permutation_trans with (y :: a :: l).
  - now apply perm_skip.
  - apply perm_swap.
Qed.

Lemma sort_perm l : Permutation (sort l) l.
Proof.
  induction l as [|y l IH]; simpl; [apply Permutation_refl|].
  apply Permutation_trans with (y :: sort l).
  - apply insert_perm.
  - now apply perm_skip.
Qed.

Lemma floor_nine_tenths (k : Z) :
  Qfloor (inject_Z k * (9 # 10)) = ((9 * k) / 10)%Z.
Proof.
  unfold Qfloor, Qmult, inject_Z. cbn [Qnum Qden].
  change (Z.pos (1 * 10)) with 10%Z. f_equal. lia.
Qed.

(** The 0.9-quantile of [n] non-null values is read off their sorted
    arrangement at the position [0.9 (n - 1)]: the value at the integer
    part of the position, plus the fractional part of the position times
    the step to the next value. *)
Lemma quantile_interpolates xs :
  dropna xs <> [] ->
  let s := sort (dropna xs) in
  let n := Z.of_nat (List.length (dropna xs)) in
  let lo := ((9 * (n - 1)) / 10)%Z in
  let hi := Z.min (lo + 1) (n - 1) in
  exists q,
    quantile (9 # 10) xs = Some q /\
    q == nth (Z.to_nat lo) s 0
         + (nth (Z.to_nat hi) s 0 - nth (Z.to_nat lo) s 0)
           * ((9 # 10) * inject_Z (n - 1) - inject_Z lo).
Proof.
  intros Hne. cbv zeta. unfold quantile.
  pose proof (sort_length (dropna xs)) as Hlen.
  destruct (sort (dropna xs)) as [|v0 vs] eqn:E.
  { destruct (dropna xs); [congruence | discriminate Hlen]. }
  cbv zeta. rewrite Hlen, floor_nine_tenths.
  set (n := Z.of_nat (List.length (dropna xs))) in *.
  assert (1 <= n)%Z as Hn.
  { unfold n. rewrite <- Hlen. simpl List.length. lia. }
  pose proof (Z.div_mod (9 * (n - 1)) 10 ltac:(lia)) as Hd.
  pose proof (Z.mod_pos_bound (9 * (n - 1)) 10 ltac:(lia)) as Hm.
  set (lo := ((9 * (n - 1)) / 10)%Z) in *.
  assert (0 <= lo <= n - 1)%Z as Hlo by lia.
  eexists. split; [reflexivity|].
  rewrite (nth_indep (v0 :: vs) 0 v0) by (unfold n in *; lia).
  rewrite (nth_indep (v0 :: vs) 0 v0 (n:=Z.to_nat (Z.min (lo + 1) (n - 1))))
    by (unfold n in *; lia).
  ring.
Qed.

End Quantile.

(** ** The cost rule *)

Lemma nan_gt_above_p90 df r :
  nan_gt (Total_Cost r) (p90 df) = true <-> above_p90 df r.
Proof.
  unfold above_p90, nan_gt.
  destruct (Total_Cost r) as [c|], (p90 df) as [q|].
  - rewrite negb_true_iff, <- not_true_iff_false, Qle_bool_iff. split.
    + intros H. exists c, q. repeat split. now apply Qnot_le_lt.
    + intros (c' & q' & Hc & Hq & Hlt).
      injection Hc as <-. injection Hq as <-. now apply Qlt_not_le.
  - split; [discriminate|]. intros (c' & q' & _ & Hq & _). discriminate.
  - split; [discriminate|]. intros (c' & q' & Hc & _). discriminate.
  - split; [discriminate|]. intros (c' & q' & Hc & _). discriminate.
Qed.

Lemma titled_cost_rule_self df :
  titled "Cost Optimization Opportunity" (cost_rule df) = cost_rule df.
Proof.
  unfold cost_rule. destruct (has_col _ _); [|reflexivity]. cbv zeta.
  destruct (negb _); reflexivity.
Qed.

Lemma cost_rule_cases df :
  has_col "Total_Cost" (columns df) = true ->
  let high := filter (fun r => nan_gt (Total_Cost r) (p90 df)) (rows df) in
  cost_rule df =
    match high with
    | [] => []
    | _ :: _ => [cost_insight (Z.of_nat (List.length high))]
    end.
Proof.
  intros Hc. unfold cost_rule, empty, len, select. rewrite Hc. simpl.
  destruct (filter _ (rows df)); [reflexivity|].
  destruct (columns df); [discriminate Hc | reflexivity].
Qed.

Lemma p90_interpolates df :
  dropna (map Total_Cost (rows df)) <> [] ->
  exists q s,
    p90 df = Some q /\
    Permutation s (dropna (map Total_Cost (rows df))) /\
    StronglySorted Qle s /\
    let k := Z.of_nat (List.length (dropna (map Total_Cost (rows df)))) in
    let lo := ((9 * (k - 1)) / 10)%Z in
    let hi := Z.min (lo + 1) (k - 1) in
    q == nth (Z.to_nat lo) s 0
         + (nth (Z.to_nat hi) s 0 - nth (Z.to_nat lo) s 0)
           * ((9 # 10) * inject_Z (k - 1) - inject_Z lo).
Proof.
  intros Hne.
  destruct (quantile_interpolates (map Total_Cost (rows df)) Hne)
    as (q & Hq & Hv).
  exists q, (sort (dropna (map Total_Cost (rows df)))).
  split; [exact Hq|]. split; [apply sort_perm|].
  split; [apply sort_sorted | exact Hv].
Qed.

(** C6.  For a table with at least one row and a [Total_Cost] column, with
    the threshold being the linearly interpolated 0.9-quantile of the
    non-null costs: a row passes the rule's test exactly when its cost is
    a number strictly above the threshold; if some row does, the insight
    list holds exactly one insight titled "Cost Optimization Opportunity",
    of type info, whose description has the number of such rows as a
    field; if none does, the list holds no insight with that title.  As
    soon as one cost is non-null the threshold is a number, whatever the
    number of rows: with the [n] non-null costs sorted, it is the value at
    the integer part [lo] of the position [0.9 (n - 1)] plus the
    fractional part of the position times the step to the next value, so
    it lies between two of the non-null costs; when every cost is NaN the
    threshold is NaN and the rule emits nothing. *)
Theorem cost_opportunity_rule df :
  rows df <> [] ->
  has_col "Total_Cost" (columns df) = true ->
  let costs := dropna (map Total_Cost (rows df)) in
  let n := count_rows (fun r => nan_gt (Total_Cost r) (p90 df)) (rows df) in
  (forall r, nan_gt (Total_Cost r) (p90 df) = true <-> above_p90 df r) /\
  ((exists r, In r (rows df) /\ above_p90 df r) ->
   titled "Cost Optimization Opportunity" (insight_rules df)
     = [cost_insight n] /\
   type (cost_insight n) = info /\
   In (Plain n) (description (cost_insight n)) /\
   (0 < n)%Z) /\
  (~ (exists r, In r (rows df) /\ above_p90 df r) ->
   titled "Cost Optimization Opportunity" (insight_rules df) = []) /\
  (costs <> [] ->
   exists q lo hi,
     p90 df = Some q /\ In lo costs /\ In hi costs /\ lo <= q <= hi) /\
  (costs <> [] ->
   exists q s,
     p90 df = Some q /\ Permutation s costs /\ StronglySorted Qle s /\
     let k := Z.of_nat (List.length costs) in
     let lo := ((9 * (k - 1)) / 10)%Z in
     let hi := Z.min (lo + 1) (k - 1) in
     q == nth (Z.to_nat lo) s 0
          + (nth (Z.to_nat hi) s 0 - nth (Z.to_nat lo) s 0)
            * ((9 # 10) * inject_Z (k - 1) - inject_Z lo)) /\
  (costs = [] ->
   p90 df = None /\
   titled "Cost Optimization Opportunity" (insight_rules df) = []).
Proof.
  intros Hr Hc costs n.
  rewrite (insight_rules_parts df (empty_false df _ Hr Hc)).
  rewrite !titled_app, titled_delivery_rule, titled_rating_rule,
    titled_cost_rule_self, app_nil_r by discriminate.
  cbn [app]. rewrite (cost_rule_cases df Hc). cbv zeta.
  assert (forall r, In r (filter (fun r => nan_gt (Total_Cost r) (p90 df))
                            (rows df))
                    <-> In r (rows df) /\ above_p90 df r) as Hhigh.
  { intros r. rewrite filter_In, nan_gt_above_p90. reflexivity. }
  unfold n, count_rows.
  destruct (filter (fun r => nan_gt (Total_Cost r) (p90 df)) (rows df))
    as [|h hs] eqn:E.
  - split; [apply nan_gt_above_p90|]. split.
    { intros (r & Hin). apply Hhigh in Hin. destruct Hin. }
    split; [reflexivity|]. split.
    { intros Hne. apply (quantile_defined (9 # 10)); [split; lra | exact Hne]. }
    split; [apply p90_interpolates|].
    intros He. split; [apply quantile_all_null, He | reflexivity].
  - split; [apply nan_gt_above_p90|]. split.
    { intros _. split; [reflexivity|]. split; [reflexivity|].
      split; [simpl; tauto|]. simpl List.length. lia. }
    split.
    { intros Hnone. exfalso. apply Hnone. exists h. apply Hhigh. now left. }
    split.
    { intros Hne. apply (quantile_defined (9 # 10)); [split; lra | exact Hne]. }
    split; [apply p90_interpolates|].
    intros He. exfalso.
      assert (In h (h :: hs)) as Hh by now left.
      apply Hhigh in Hh as [_ (c & q & _ & Hq & _)].
      unfold p90 in Hq. rewrite (quantile_all_null _ _ He) in Hq.
      discriminate Hq.
Qed.

Lemma cost_opportunity_rule_witness :
  let costs := dropna (map Total_Cost (rows sample_df)) in
  let n :=
    count_rows (fun r => nan_gt (Total_Cost r) (p90 sample_df))
      (rows sample_df) in
  (forall r, nan_gt (Total_Cost r) (p90 sample_df) = true
             <-> above_p90 sample_df r) /\
  ((exists r, In r (rows sample_df) /\ above_p90 sample_df r) ->
   titled "Cost Optimization Opportunity" (insight_rules sample_df)
     = [cost_insight n] /\
   type (cost_insight n) = info /\
   In (Plain n) (description (cost_insight n)) /\
   (0 < n)%Z) /\
  (~ (exists r, In r (rows sample_df) /\ above_p90 sample_df r) ->
   titled "Cost Optimization Opportunity" (insight_rules sample_df) = []) /\
  (costs <> [] ->
   exists q lo hi,
     p90 sample_df = Some q /\ In lo costs /\ In hi costs /\ lo <= q <= hi) /\
  (costs <> [] ->
   exists q s,
     p90 sample_df = Some q /\ Permutation s costs /\ StronglySorted Qle s /\
     let k := Z.of_nat (List.length costs) in
     let lo := ((9 * (k - 1)) / 10)%Z in
     let hi := Z.min (lo + 1) (k - 1) in
     q == nth (Z.to_nat lo) s 0
          + (nth (Z.to_nat hi) s 0 - nth (Z.to_nat lo) s 0)
            * ((9 # 10) * inject_Z (k - 1) - inject_Z lo)) /\
  (costs = [] ->
   p90 sample_df = None /\
   titled "Cost Optimization Opportunity" (insight_rules sample_df) = []).
Proof.
  apply (cost_opportunity_rule sample_df); [discriminate | reflexivity].
Defined.

(** The sample costs are 200, 200, NaN and 400: the non-null ones sorted
    are 200, 200, 400, position 0.9 * 2 = 1.8 interpolates to 360, and
    one order costs more. *)
Example sample_p90 :
  exists q, p90 sample_df = Some q /\ q == 360 /\
  titled "Cost Optimization Opportunity" (insight_rules sample_df)
    = [cost_insight 1].
Proof. eexists. repeat split. Qed.

(** A single order is never above its own percentile, and a table whose
    costs are all NaN raises nothing and yields no cost insight. *)
Example single_row_and_all_null :
  insight_rules
    {| columns := columns sample_df;
       rows := [derive_row (unmatched_order "O5")] |}
    = [delivery_insight (inject_Z 0 / inject_Z 1 * 100)] /\
  p90 {| columns := columns sample_df;
         rows := [derive_row
                    (sample_order "O3" 3 "Delhivery" "Delayed" None None)] |}
    = None /\
  titled "Cost Optimization Opportunity"
    (insight_rules
       {| columns := columns sample_df;
          rows := [derive_row
                     (sample_order "O3" 3 "Delhivery" "Delayed" None None)] |})
    = [].
Proof. repeat split. Qed.

(** ** The delay column *)

(** In the table [load_data] returns, the delay of row [i] is a number
    exactly when both the actual and the promised days of order [i] are,
    and then it is actual minus promised, negative for an early delivery;
    it is never clamped and never replaced by zero. *)
Theorem delivery_delay_is_signed_difference m df i o :
  load_data m = Some df ->
  nth_error (mrows m) i = Some o ->
  exists r,
    nth_error (rows df) i = Some r /\
    (forall d, Delivery_Delay_Days r = Some d <->
               exists a p, Actual_Delivery_Days o = Some a /\
                           Promised_Delivery_Days o = Some p /\
                           d = a - p) /\
    (Delivery_Delay_Days r = None <->
     Actual_Delivery_Days o = None \/ Promised_Delivery_Days o = None).
Proof.
  intros Hl Hi. rewrite (load_data_rows _ _ Hl).
  exists (derive_row o). split.
  { rewrite nth_error_map, Hi. reflexivity. }
  simpl.
  destruct (Actual_Delivery_Days o) as [a|],
           (Promised_Delivery_Days o) as [p|]; simpl; split.
  - intros d. split.
    + intros H. injection H as <-. now exists a, p.
    + intros (a' & p' & Ha & Hp & ->).
      injection Ha as <-. injection Hp as <-. reflexivity.
  - split; [discriminate | intros [H|H]; discriminate H].
  - intros d. split; [discriminate|]. intros (? & ? & _ & H & _).
    discriminate H.
  - split; [tauto | reflexivity].
  - intros d. split; [discriminate|]. intros (? & ? & H & _).
    discriminate H.
  - split; [tauto | reflexivity].
  - intros d. split; [discriminate|]. intros (? & ? & H & _).
    discriminate H.
  - split; [tauto | reflexivity].
Qed.

Lemma delivery_delay_is_signed_difference_witness :
  exists r,
    nth_error (rows sample_df) 0 = Some r /\
    (forall d, Delivery_Delay_Days r = Some d <->
               exists a p,
                 Actual_Delivery_Days
                   (sample_order "O1" 1 "BlueDart" "On-Time" (Some 100)
                      (Some 5)) = Some a /\
                 Promised_Delivery_Days
                   (sample_order "O1" 1 "BlueDart" "On-Time" (Some 100)
                      (Some 5)) = Some p /\
                 d = a - p) /\
    (Delivery_Delay_Days r = None <->
     Actual_Delivery_Days
       (sample_order "O1" 1 "BlueDart" "On-Time" (Some 100) (Some 5)) = None
     \/ Promised_Delivery_Days
          (sample_order "O1" 1 "BlueDart" "On-Time" (Some 100) (Some 5))
        = None).
Proof.
  apply (delivery_delay_is_signed_difference sample_merged sample_df 0%nat);
    reflexivity.
Defined.

(** ** [create_kpi_metrics]: exceptions and the shape of the result *)

(** On a table with rows and columns but no [On_Time] column the KPI call
    raises [KeyError('On_Time')]; with [On_Time] but no [Delivery_Status]
    column it raises [KeyError('Delivery_Status')]. *)
Theorem kpi_raises_on_missing_column df :
  empty df = false ->
  (has_col "On_Time" (columns df) = false ->
   create_kpi_metrics (Some df) = Raise (KeyError "On_Time")) /\
  (has_col "On_Time" (columns df) = true ->
   has_col "Delivery_Status" (columns df) = false ->
   create_kpi_metrics (Some df) = Raise (KeyError "Delivery_Status")).
Proof.
  intros He.
  assert (rows df <> []) as Hr.
  { unfold empty in He. destruct (rows df); [discriminate | discriminate]. }
  unfold create_kpi_metrics, getitem. rewrite He, (len_pos df Hr). split.
  - intros ->. reflexivity.
  - intros -> ->. simpl.
    destruct (has_col "Customer_Rating" (columns df));
      destruct (has_col "Total_Cost" (columns df)); reflexivity.
Qed.

Lemma kpi_raises_on_missing_column_witness :
  (has_col "On_Time" (columns (mkDF ["Order_ID"] (rows sample_df))) = false ->
   create_kpi_metrics (Some (mkDF ["Order_ID"] (rows sample_df)))
     = Raise (KeyError "On_Time")) /\
  (has_col "On_Time" (columns (mkDF ["Order_ID"] (rows sample_df))) = true ->
   has_col "Delivery_Status" (columns (mkDF ["Order_ID"] (rows sample_df)))
     = false ->
   create_kpi_metrics (Some (mkDF ["Order_ID"] (rows sample_df)))
     = Raise (KeyError "Delivery_Status")).
Proof.
  apply (kpi_raises_on_missing_column (mkDF ["Order_ID"] (rows sample_df))).
  reflexivity.
Defined.

(** Whenever the KPI call returns, the dict is either empty, which
    happens exactly for [None] and for a table with no row or no column,
    or it has exactly the five keys, in the order of the source, with
    [total_orders] the positive row count. *)
Theorem kpi_dict_is_empty_or_complete odf d :
  create_kpi_metrics odf = Ok d ->
  (d = [] /\ (odf = None \/ exists df, odf = Some df /\ empty df = true)) \/
  (exists df,
     odf = Some df /\ empty df = false /\
     map fst d = ["total_orders"; "on_time_rate"; "avg_rating"; "avg_cost";
                  "severely_delayed_rate"] /\
     dict_get "total_orders" d = Some (VInt (len df)) /\ (0 < len df)%Z).
Proof.
  destruct odf as [df|]; simpl.
  2:{ intros H. injection H as <-. left. split; [reflexivity | now left]. }
  destruct (empty df) eqn:He.
  { intros H. injection H as <-. left. split; [reflexivity|].
    right. now exists df. }
  assert (rows df <> []) as Hr.
  { unfold empty in He. destruct (rows df); [discriminate | discriminate]. }
  pose proof (len_pos df Hr) as Hpos. rewrite Hpos. unfold getitem.
  destruct (has_col "On_Time" (columns df)); [|discriminate].
  destruct (has_col "Customer_Rating" (columns df));
    destruct (has_col "Total_Cost" (columns df));
    destruct (has_col "Delivery_Status" (columns df));
    simpl; try discriminate;
    intros H; injection H as <-; right; exists df;
    (split; [reflexivity|]); (split; [exact He|]);
    (split; [reflexivity|]); (split; [reflexivity|]);
    now apply Z.ltb_lt.
Qed.

Lemma kpi_dict_is_empty_or_complete_witness :
  exists d,
    create_kpi_metrics (Some sample_df) = Ok d /\
    ((d = [] /\
      (Some sample_df = None \/
       exists df, Some sample_df = Some df /\ empty df = true)) \/
     (exists df,
        Some sample_df = Some df /\ empty df = false /\
        map fst d = ["total_orders"; "on_time_rate"; "avg_rating";
                     "avg_cost"; "severely_delayed_rate"] /\
        dict_get "total_orders" d = Some (VInt (len df)) /\ (0 < len df)%Z)).
Proof.
  eexists. split; [reflexivity|].
  apply (kpi_dict_is_empty_or_complete (Some sample_df)). reflexivity.
Defined.

(** ** The KPI row of the dashboard *)

(** For a table with no row the dashboard tab cannot draw its first
    metric: the KPI dict is empty and the lookup of [total_orders] raises
    [KeyError]. *)
Theorem kpi_row_raises_on_empty_table df :
  empty df = true -> kpi_row df = Raise (KeyError "total_orders").
Proof.
  intros He. unfold kpi_row, create_kpi_metrics. rewrite He. reflexivity.
Qed.

Lemma kpi_row_raises_on_empty_table_witness :
  kpi_row (mkDF (columns sample_df) []) = Raise (KeyError "total_orders").
Proof.
  apply (kpi_row_raises_on_empty_table (mkDF (columns sample_df) [])).
  reflexivity.
Defined.

Lemma percent_positive c n :
  (0 <= c)%Z -> (0 < n)%Z ->
  (Qlt_bool 0 (percent c n) = true <-> (0 < c)%Z).
Proof.
  intros Hc Hn. rewrite Qlt_bool_iff. unfold percent.
  assert (0 < inject_Z n) as Hn'.
  { change 0 with (inject_Z 0). now rewrite <- Zlt_Qlt. }
  split.
  - intros H. apply Z.le_lteq in Hc as [Hc|<-]; [exact Hc|].
    exfalso. change (inject_Z 0) with 0 in H.
    assert (0 / inject_Z n * 100 == 0) as E by (field; lra).
    rewrite E in H. lra.
  - intros H.
    assert (0 < inject_Z c) as Hc'.
    { change 0 with (inject_Z 0). now rewrite <- Zlt_Qlt. }
    assert (0 < inject_Z c / inject_Z n).
    { apply Qlt_shift_div_l; [exact Hn' | lra]. }
    lra.
Qed.

Lemma value_positive_mean xs :
  value_positive (VFloat (mean xs)) = true <->
  exists q, mean xs = Some q /\ 0 < q.
Proof.
  simpl. destruct (mean xs) as [q|].
  - rewrite Qlt_bool_iff. split.
    + intros H. now exists q.
    + intros (q' & Hq & H). now injection Hq as <-.
  - split; [discriminate|]. intros (q & Hq & _). discriminate Hq.
Qed.

(** On a table from [load_data], filtered and still holding a row, the
    dashboard draws its five metrics without an exception.  The cost
    metric reads "N/A" exactly when the average cost is not a positive
    number (NaN included); the rating delta is shown exactly when there is
    a rating column whose average is a positive number; the on-time delta
    is shown exactly when some row is on time, and the severe-delay delta
    exactly when some row is severely delayed. *)
Theorem kpi_row_of_pipeline_table m df s :
  load_data m = Some df ->
  rows (apply_filters s df) <> [] ->
  let t := apply_filters s df in
  exists total on rating cost severe,
    kpi_row t = Ok [total; on; rating; cost; severe] /\
    map metric_label [total; on; rating; cost; severe]
      = ["Total Orders"; "On-Time Rate"; "Avg Rating"; "Avg Cost/Order";
         "Severe Delays"] /\
    metric_value total = [Field (VInt (len t)) Thousands] /\
    (metric_value cost = [Text "N/A"] <->
     ~ exists q, mean (map Total_Cost (rows t)) = Some q /\ 0 < q) /\
    (metric_delta rating <> None <->
     has_col "Customer_Rating" (columns t) = true /\
     exists q, mean (map (fun r => Customer_Rating (order r)) (rows t))
               = Some q /\ 0 < q) /\
    (metric_delta on <> None <-> (0 < count_rows On_Time (rows t))%Z) /\
    (metric_delta severe <> None <->
     (0 < count_rows (status_is "Severely-Delayed") (rows t))%Z).
Proof.
  intros Hl Hne t.
  destruct (load_data_columns m df Hl) as (Hon & Hst & Hco).
  assert (columns t = columns df) as Hcols by apply apply_filters_columns.
  rewrite <- Hcols in Hon, Hst, Hco.
  unfold kpi_row.
  rewrite (create_kpi_metrics_nonempty t Hne Hon Hst), Hco.
  cbn [bind dict_index dict_get String.eqb Ascii.eqb Bool.eqb].
  do 5 eexists. split; [reflexivity|].
  split; [reflexivity|]. split; [reflexivity|].
  cbn [metric_value metric_delta].
  pose proof (len_pos t Hne) as Hlen. apply Z.ltb_lt in Hlen.
  split.
  { rewrite <- value_positive_mean.
    destruct (value_positive (VFloat (mean (map Total_Cost (rows t)))));
      split; congruence. }
  split.
  { destruct (has_col "Customer_Rating" (columns t)).
    - rewrite <- value_positive_mean.
      destruct (value_positive _); split; try congruence; try tauto.
      intros [_ H]; discriminate H.
    - simpl. split; [congruence | intros [H _]; discriminate H]. }
  split.
  - rewrite <- (percent_positive _ (len t)); [|apply count_rows_bounds|lia].
    simpl value_positive. destruct (Qlt_bool _ _); split; congruence.
  - rewrite <- (percent_positive _ (len t)); [|apply count_rows_bounds|lia].
    simpl value_positive. destruct (Qlt_bool _ _); split; congruence.
Qed.

Lemma kpi_row_of_pipeline_table_witness :
  let t := apply_filters one_carrier df_with_gap in
  exists total on rating cost severe,
    kpi_row t = Ok [total; on; rating; cost; severe] /\
    map metric_label [total; on; rating; cost; severe]
      = ["Total Orders"; "On-Time Rate"; "Avg Rating"; "Avg Cost/Order";
         "Severe Delays"] /\
    metric_value total = [Field (VInt (len t)) Thousands] /\
    (metric_value cost = [Text "N/A"] <->
     ~ exists q, mean (map Total_Cost (rows t)) = Some q /\ 0 < q) /\
    (metric_delta rating <> None <->
     has_col "Customer_Rating" (columns t) = true /\
     exists q, mean (map (fun r => Customer_Rating (order r)) (rows t))
               = Some q /\ 0 < q) /\
    (metric_delta on <> None <-> (0 < count_rows On_Time (rows t))%Z) /\
    (metric_delta severe <> None <->
     (0 < count_rows (status_is "Severely-Delayed") (rows t))%Z).
Proof.
  apply (kpi_row_of_pipeline_table merged_with_gap df_with_gap one_carrier);
    [reflexivity | discriminate].
Defined.

(** ** The rating rule and the shape of the insight list *)

Lemma nan_le_low_rated r :
  nan_le (Customer_Rating (order r)) (Some 2) = true <-> low_rated r.
Proof.
  unfold low_rated, nan_le. destruct (Customer_Rating (order r)) as [x|].
  - rewrite Qle_bool_iff. split.
    + intros H. now exists x.
    + intros (x' & Hx & H). now injection Hx as <-.
  - split; [discriminate|]. intros (x & Hx & _). discriminate Hx.
Qed.

Lemma titled_rating_rule_self df :
  titled "Customer Satisfaction Risk" (rating_rule df) = rating_rule df.
Proof.
  unfold rating_rule. destruct (has_col _ _); [|reflexivity]. cbv zeta.
  destruct (negb _); reflexivity.
Qed.

Lemma rating_rule_cases df :
  let low := filter (fun r => nan_le (Customer_Rating (order r)) (Some 2))
               (rows df) in
  rating_rule df =
    if has_col "Customer_Rating" (columns df) then
      match low with
      | [] => []
      | _ :: _ => [rating_insight (Z.of_nat (List.length low))]
      end
    else [].
Proof.
  unfold rating_rule, empty, len, select. simpl.
  destruct (has_col "Customer_Rating" (columns df)) eqn:Hc; [|reflexivity].
  destruct (filter _ (rows df)); [reflexivity|].
  destruct (columns df); [discriminate Hc | reflexivity].
Qed.

Lemma cost_rule_cases_gen df :
  let high := filter (fun r => nan_gt (Total_Cost r) (p90 df)) (rows df) in
  cost_rule df =
    if has_col "Total_Cost" (columns df) then
      match high with
      | [] => []
      | _ :: _ => [cost_insight (Z.of_nat (List.length high))]
      end
    else [].
Proof.
  destruct (has_col "Total_Cost" (columns df)) eqn:Hc.
  - apply (cost_rule_cases df Hc).
  - unfold cost_rule. now rewrite Hc.
Qed.

(** The third rule.  For a table with a row and a column: without a
    [Customer_Rating] column no insight titled "Customer Satisfaction
    Risk" is produced; with it, exactly one is, a warning whose
    description has the number of rows rated 2 or less as a field, if and
    only if such a row exists.  A row whose rating is NaN is never
    counted. *)
Theorem rating_risk_rule df :
  empty df = false ->
  let n :=
    count_rows (fun r => nan_le (Customer_Rating (order r)) (Some 2))
      (rows df) in
  (forall r, nan_le (Customer_Rating (order r)) (Some 2) = true
             <-> low_rated r) /\
  (forall r, Customer_Rating (order r) = None -> ~ low_rated r) /\
  (has_col "Customer_Rating" (columns df) = false ->
   titled "Customer Satisfaction Risk" (insight_rules df) = []) /\
  (has_col "Customer_Rating" (columns df) = true ->
   (exists r, In r (rows df) /\ low_rated r) ->
   titled "Customer Satisfaction Risk" (insight_rules df)
     = [rating_insight n] /\
   type (rating_insight n) = warning /\
   In (Plain n) (description (rating_insight n)) /\
   (0 < n)%Z) /\
  (has_col "Customer_Rating" (columns df) = true ->
   ~ (exists r, In r (rows df) /\ low_rated r) ->
   titled "Customer Satisfaction Risk" (insight_rules df) = []).
Proof.
  intros He n.
  rewrite (insight_rules_parts df He).
  rewrite !titled_app, titled_delivery_rule, titled_cost_rule,
    titled_rating_rule_self by discriminate.
  cbn [app]. rewrite rating_rule_cases. cbv zeta.
  assert (forall r,
            In r (filter (fun r => nan_le (Customer_Rating (order r)) (Some 2))
                    (rows df))
            <-> In r (rows df) /\ low_rated r) as Hlow.
  { intros r. rewrite filter_In, nan_le_low_rated. reflexivity. }
  split; [apply nan_le_low_rated|].
  split.
  { intros r Hnull (x & Hx & _). congruence. }
  unfold n, count_rows.
  destruct (has_col "Customer_Rating" (columns df)).
  2:{ split; [reflexivity|]. split; discriminate. }
  split; [discriminate|].
  destruct (filter _ (rows df)) as [|h hs] eqn:E.
  - split.
    + intros _ (r & Hin). apply Hlow in Hin. destruct Hin.
    + reflexivity.
  - split.
    + intros _ _. split; [reflexivity|]. split; [reflexivity|].
      split; [simpl; tauto|]. simpl List.length. lia.
    + intros _ Hnone. exfalso. apply Hnone. exists h. apply Hlow. now left.
Qed.

Lemma rating_risk_rule_witness :
  let n :=
    count_rows (fun r => nan_le (Customer_Rating (order r)) (Some 2))
      (rows sample_df) in
  (forall r, nan_le (Customer_Rating (order r)) (Some 2) = true
             <-> low_rated r) /\
  (forall r, Customer_Rating (order r) = None -> ~ low_rated r) /\
  (has_col "Customer_Rating" (columns sample_df) = false ->
   titled "Customer Satisfaction Risk" (insight_rules sample_df) = []) /\
  (has_col "Customer_Rating" (columns sample_df) = true ->
   (exists r, In r (rows sample_df) /\ low_rated r) ->
   titled "Customer Satisfaction Risk" (insight_rules sample_df)
     = [rating_insight n] /\
   type (rating_insight n) = warning /\
   In (Plain n) (description (rating_insight n)) /\
   (0 < n)%Z) /\
  (has_col "Customer_Rating" (columns sample_df) = true ->
   ~ (exists r, In r (rows sample_df) /\ low_rated r) ->
   titled "Customer Satisfaction Risk" (insight_rules sample_df) = []).
Proof.
  apply (rating_risk_rule sample_df). reflexivity.
Defined.

(** The insight list of any table is made of at most one delivery
    warning, then at most one cost insight, then at most one rating
    warning, in this order; a delivery warning quotes a rate below 75 and
    the other two a positive count; a table with no row or no column gets
    no insight at all. *)
Theorem insight_rules_shape df :
  (empty df = true -> insight_rules df = []) /\
  exists (b1 b2 b3 : bool) x n k,
    insight_rules df =
      (if b1 then [delivery_insight x] else [])
      ++ (if b2 then [cost_insight n] else [])
      ++ (if b3 then [rating_insight k] else []) /\
    (b1 = true -> x < 75) /\
    (b2 = true -> (0 < n)%Z) /\
    (b3 = true -> (0 < k)%Z).
Proof.
  split; [apply insight_rules_empty|].
  destruct (empty df) eqn:He.
  { exists false, false, false, 0, 0%Z, 0%Z.
    rewrite (insight_rules_empty df He).
    split; [reflexivity|]. repeat split; discriminate. }
  rewrite (insight_rules_parts df He).
  rewrite cost_rule_cases_gen, rating_rule_cases. cbv zeta.
  unfold delivery_rule.
  exists (Qlt_bool (insight_on_time_rate df) 75).
  set (high := filter (fun r => nan_gt (Total_Cost r) (p90 df)) (rows df)).
  set (low := filter _ (rows df)).
  exists (has_col "Total_Cost" (columns df) && truthy high),
         (has_col "Customer_Rating" (columns df) && truthy low),
         (insight_on_time_rate df),
         (Z.of_nat (List.length high)), (Z.of_nat (List.length low)).
  split.
  { f_equal. f_equal.
    - destruct (has_col "Total_Cost" (columns df)), high; reflexivity.
    - destruct (has_col "Customer_Rating" (columns df)), low; reflexivity. }
  split; [apply Qlt_bool_iff|].
  split; intros H; apply andb_true_iff in H as [_ H].
  - destruct high; [discriminate | simpl List.length; lia].
  - destruct low; [discriminate | simpl List.length; lia].
Qed.

(** A table with rows but without an [On_Time] column always gets the
    delivery warning, quoting a rate of 0, as its first insight. *)
Theorem delivery_warning_without_on_time_column df :
  empty df = false ->
  has_col "On_Time" (columns df) = false ->
  exists rest, insight_rules df = delivery_insight 0 :: rest.
Proof.
  intros He Hon. rewrite (insight_rules_parts df He).
  unfold delivery_rule, insight_on_time_rate. rewrite Hon.
  eexists. reflexivity.
Qed.

Lemma delivery_warning_without_on_time_column_witness :
  exists rest,
    insight_rules (mkDF ["Order_ID"] (rows sample_df))
      = delivery_insight 0 :: rest.
Proof.
  apply (delivery_warning_without_on_time_column
           (mkDF ["Order_ID"] (rows sample_df))); reflexivity.
Defined.

(** The insight tab and the dashboard agree: for a table with a row, the
    rate the first rule tests is the very number stored under
    [on_time_rate] in the KPI dict; the delivery warning heads the insight
    list and quotes that number when it is below 75, and is absent
    otherwise. *)
Theorem delivery_warning_agrees_with_kpi df :
  rows df <> [] ->
  has_col "On_Time" (columns df) = true ->
  has_col "Delivery_Status" (columns df) = true ->
  exists d x,
    create_kpi_metrics (Some df) = Ok d /\
    dict_get "on_time_rate" d = Some (VFloat (Some x)) /\
    (x < 75 ->
     exists rest, insight_rules df = delivery_insight x :: rest) /\
    (75 <= x ->
     titled "Delivery Performance Issue" (insight_rules df) = []).
Proof.
  intros Hr Hon Hst.
  rewrite (create_kpi_metrics_nonempty df Hr Hon Hst).
  do 2 eexists. split; [reflexivity|]. split; [reflexivity|].
  rewrite (insight_rules_parts df (empty_false df _ Hr Hon)).
  rewrite !titled_app, titled_cost_rule, titled_rating_rule, !app_nil_r
    by discriminate.
  unfold delivery_rule, insight_on_time_rate. rewrite Hon, bsum_map.
  fold (percent (count_rows On_Time (rows df)) (len df)).
  destruct (Qlt_bool (percent (count_rows On_Time (rows df)) (len df)) 75)
    eqn:E.
  - split.
    + intros _. eexists. reflexivity.
    + intros H. apply Qlt_bool_iff in E. exfalso. lra.
  - split; [|reflexivity].
    intros H. apply Qlt_bool_iff in H. congruence.
Qed.

Lemma delivery_warning_agrees_with_kpi_witness :
  exists d x,
    create_kpi_metrics (Some sample_df) = Ok d /\
    dict_get "on_time_rate" d = Some (VFloat (Some x)) /\
    (x < 75 ->
     exists rest, insight_rules sample_df = delivery_insight x :: rest) /\
    (75 <= x ->
     titled "Delivery Performance Issue" (insight_rules sample_df) = []).
Proof.
  apply (delivery_warning_agrees_with_kpi sample_df);
    [discriminate | reflexivity | reflexivity].
Defined.

(** ** How many orders the cost rule can flag *)

Lemma filter_insert_length (p : Q -> bool) a l :
  List.length (filter p (insert a l)) = List.length (filter p (a :: l)).
Proof.
  induction l as [|y l IH]; [reflexivity|]. simpl insert.
  destruct (Qle_bool a y); [reflexivity|].
  simpl in *. destruct (p y), (p a); simpl in *; lia.
Qed.

Lemma filter_sort_length (p : Q -> bool) l :
  List.length (filter p (sort l)) = List.length (filter p l).
Proof.
  induction l as [|y l IH]; [reflexivity|]. simpl sort.
  rewrite filter_insert_length. simpl. destruct (p y); simpl; lia.
Qed.

(** The rows above a threshold, counted on the non-null cost values. *)
Lemma count_above_dropna q (l : list Row) :
  count_rows (fun r => nan_gt (Total_Cost r) (Some q)) l
  = Z.of_nat (List.length
      (filter (fun c => negb (Qle_bool c q)) (dropna (map Total_Cost l)))).
Proof.
  unfold count_rows. f_equal.
  induction l as [|r l IH]; [reflexivity|]. simpl.
  destruct (Total_Cost r) as [c|]; simpl; [|exact IH].
  destruct (negb (Qle_bool c q)); simpl; now rewrite IH.
Qed.

Lemma filter_none {A} (p : A -> bool) l :
  (forall x, In x l -> p x = false) -> filter p l = [].
Proof.
  induction l as [|y l IH]; intros H; [reflexivity|]. simpl.
  rewrite (H y (or_introl eq_refl)). apply IH.
  intros x Hx. apply H. now right.
Qed.

(** In a sorted list nothing at or before position [i] exceeds a bound on
    the element at position [i]. *)
Lemma sorted_above_length s d i q :
  StronglySorted Qle s -> (i < List.length s)%nat -> nth i s d <= q ->
  (List.length (filter (fun c => negb (Qle_bool c q)) s)
   <= List.length s - S i)%nat.
Proof.
  intros Hs Hi Hq.
  rewrite <- (firstn_skipn (S i) s) at 1. rewrite filter_app, length_app.
  rewrite (filter_none _ (firstn (S i) s)).
  - simpl. pose proof (filter_length_le (fun c => negb (Qle_bool c q))
                         (skipn (S i) s)) as H.
    rewrite length_skipn in H. exact H.
  - intros x Hx. apply (In_nth _ _ d) in Hx as (j & Hj & <-).
    rewrite length_firstn in Hj. rewrite nth_firstn.
    assert (j < S i)%nat as Hji by lia.
    apply Nat.ltb_lt in Hji as ->.
    apply negb_false_iff, Qle_bool_iff.
    apply Qle_trans with (nth i s d); [|exact Hq].
    apply sorted_nth_le; [exact Hs | lia].
Qed.

(** The position the quantile interpolates from, and the value there. *)
Lemma quantile_floor_bound q xs :
  0 <= q <= 1 -> dropna xs <> [] ->
  let s := sort (dropna xs) in
  let n := Z.of_nat (List.length (dropna xs)) in
  let lo := Qfloor (inject_Z (n - 1) * q) in
  (0 <= lo <= n - 1)%Z /\
  exists v, quantile q xs = Some v /\ nth (Z.to_nat lo) s 0 <= v.
Proof.
  intros [Hq0 Hq1] Hne. cbv zeta.
  rewrite <- (sort_length (dropna xs)). unfold quantile.
  pose proof (sort_sorted (dropna xs)) as Hs.
  pose proof (sort_length (dropna xs)) as Hlen.
  destruct (sort (dropna xs)) as [|v0 vs] eqn:E.
  { destruct (dropna xs); [congruence | discriminate Hlen]. }
  cbv zeta.
  set (n := Z.of_nat (List.length (v0 :: vs))).
  set (pos := inject_Z (n - 1) * q).
  set (lo := Qfloor pos).
  set (hi := Z.min (lo + 1) (n - 1)).
  assert (1 <= n)%Z as Hn by (unfold n; simpl List.length; lia).
  assert (0 <= inject_Z (n - 1)) as Hn1.
  { change 0 with (inject_Z 0). rewrite <- Zle_Qle. lia. }
  assert (0 <= pos <= inject_Z (n - 1)) as [Hp0 Hp1]
    by (unfold pos; split; nra).
  assert (0 <= lo <= n - 1)%Z as Hlo.
  { unfold lo. split.
    - change 0%Z with (Qfloor 0). apply Qfloor_resp_le, Hp0.
    - rewrite <- (Qfloor_Z (n - 1)). apply Qfloor_resp_le, Hp1. }
  assert (lo <= hi <= n - 1)%Z as Hhi by (unfold hi; lia).
  assert (0 <= pos - inject_Z lo <= 1) as Hf.
  { pose proof (Qfloor_le pos) as H1. pose proof (Qlt_floor pos) as H2.
    fold lo in H1, H2. rewrite inject_Z_plus in H2.
    change (inject_Z 1) with 1 in H2. split; lra. }
  assert (Z.to_nat lo <= Z.to_nat hi < List.length (v0 :: vs))%nat as Hidx
    by (unfold n in *; lia).
  split; [exact Hlo|].
  eexists. split; [reflexivity|].
  rewrite (nth_indep (v0 :: vs) 0 v0) by lia.
  apply interpolation_bounds; [|exact Hf].
  apply sorted_nth_le; assumption.
Qed.

(** The cost rule flags few orders.  With [n] non-null costs, the rows
    strictly above the 0.9-quantile number at most [n - 1 - (9 (n - 1)) / 10]
    (integer division), which is at most a tenth of [n + 8]; with a single
    non-null cost, or none, no row is flagged. *)
Theorem high_cost_orders_are_few df :
  let n := Z.of_nat (List.length (dropna (map Total_Cost (rows df)))) in
  let high :=
    count_rows (fun r => nan_gt (Total_Cost r) (p90 df)) (rows df) in
  (1 <= n -> high <= n - 1 - (9 * (n - 1)) / 10)%Z /\
  (10 * high <= n + 8)%Z /\
  (n <= 1 -> high = 0)%Z.
Proof.
  cbv zeta.
  remember (dropna (map Total_Cost (rows df))) as costs eqn:Ec.
  remember (Z.of_nat (List.length costs)) as n eqn:En.
  assert ((1 <= n ->
           count_rows (fun r => nan_gt (Total_Cost r) (p90 df)) (rows df)
           <= n - 1 - (9 * (n - 1)) / 10)%Z /\
          (n = 0 ->
           count_rows (fun r => nan_gt (Total_Cost r) (p90 df)) (rows df)
           = 0)%Z) as [H1 H0].
  { split.
    - intros Hn.
      assert (dropna (map Total_Cost (rows df)) <> []) as Hne.
      { rewrite <- Ec. intros ->. simpl in En. lia. }
      destruct (quantile_floor_bound (9 # 10) (map Total_Cost (rows df))
                  ltac:(split; lra) Hne) as (Hlo & v & Hv & Hnth).
      rewrite <- Ec, <- En in Hlo, Hnth.
      assert (Qfloor (inject_Z (n - 1) * (9 # 10)) = (9 * (n - 1)) / 10)%Z
        as Efl.
      { unfold Qfloor, Qmult, inject_Z. cbn [Qnum Qden].
        change (Z.pos (1 * 10)) with 10%Z. f_equal. lia. }
      rewrite Efl in Hlo, Hnth.
      unfold p90. rewrite Hv, count_above_dropna, <- Ec.
      rewrite <- (filter_sort_length _ costs).
      pose proof (sorted_above_length (sort costs) 0
                    (Z.to_nat ((9 * (n - 1)) / 10)) v
                    (sort_sorted costs)) as Hb.
      rewrite sort_length in Hb.
      specialize (Hb ltac:(lia) Hnth). lia.
    - intros Hn.
      assert (costs = []) as Hnil.
      { apply length_zero_iff_nil. lia. }
      unfold p90. rewrite (quantile_all_null (9 # 10) _); [|congruence].
      unfold count_rows. rewrite filter_none; [reflexivity|].
      intros r _. unfold nan_gt. now destruct (Total_Cost r). }
  split; [exact H1|].
  assert (n = 0 \/ 1 <= n)%Z as [Hn|Hn] by lia.
  - rewrite (H0 Hn). split; lia.
  - specialize (H1 Hn).
    pose proof (count_rows_bounds
                  (fun r => nan_gt (Total_Cost r) (p90 df)) (rows df)) as Hcb.
    pose proof (Z.div_mod (9 * (n - 1)) 10 ltac:(lia)) as Hd.
    pose proof (Z.mod_pos_bound (9 * (n - 1)) 10 ltac:(lia)) as Hm.
    split; [lia|]. intros Hle. assert (n = 1)%Z as -> by lia.
    change ((9 * (1 - 1)) / 10)%Z with 0%Z in H1. lia.
Qed.

(** ** Filters: composition and missing values *)

(** Two filter specifications can be applied in either order, and the
    result is the rows passing both conjunctions. *)
Theorem apply_filters_commute A B df :
  apply_filters A (apply_filters B df) = apply_filters B (apply_filters A df)
  /\ rows (apply_filters A (apply_filters B df))
     = filter (fun r => satisfies A (columns df) r
                        && satisfies B (columns df) r) (rows df).
Proof.
  assert (forall X Y,
            rows (apply_filters X (apply_filters Y df))
            = filter (fun r => satisfies Y (columns df) r
                               && satisfies X (columns df) r) (rows df))
    as Hrows.
  { intros X Y. rewrite (apply_filters_rows X (apply_filters Y df)).
    rewrite apply_filters_columns, apply_filters_rows.
    apply filter_andb. }
  split.
  - apply DataFrame_eq.
    + now rewrite !apply_filters_columns.
    + rewrite !Hrows. apply filter_ext. intros r. apply andb_comm.
  - rewrite Hrows. apply filter_ext. intros r. apply andb_comm.
Qed.

Lemma cell_eqb_eq a b : cell_eqb a b = true <-> a = b.
Proof.
  destruct a as [x|], b as [y|]; simpl.
  - rewrite String.eqb_eq. split; congruence.
  - split; discriminate.
  - split; discriminate.
  - tauto.
Qed.

Lemma isin_In values c : isin values c = true <-> In c values.
Proof.
  unfold isin. rewrite existsb_exists. split.
  - intros (x & Hin & Hx). apply cell_eqb_eq in Hx. now subst.
  - intros H. exists c. split; [exact H | now apply cell_eqb_eq].
Qed.

(** What an active filter does to missing values.  After a two-ended date
    range every remaining row has a date, inside the range; after a
    non-empty carrier selection every remaining row has a carrier, one of
    the selected; after a non-empty priority or segment selection the
    remaining rows have a selected value, and a row with a missing value
    remains only if NaN itself was selected. *)
Theorem active_filters_drop_missing_values s df r :
  In r (rows (apply_filters s df)) ->
  (has_col "Order_Date" (columns df) = true ->
   forall d0 d1, date_range s = [d0; d1] ->
   exists t, Order_Date (order r) = Some t /\ (d0 <= t <= d1)%Z) /\
  (has_col "Carrier" (columns df) = true -> carriers s <> [] ->
   exists c, Carrier (order r) = Some c /\ In c (carriers s)) /\
  (has_col "Priority" (columns df) = true -> priorities s <> [] ->
   In (Priority (order r)) (priorities s)) /\
  (has_col "Customer_Segment" (columns df) = true -> segments s <> [] ->
   In (Customer_Segment (order r)) (segments s)).
Proof.
  intros Hin. rewrite apply_filters_rows in Hin.
  apply filter_In in Hin as [_ Hin]. unfold satisfies in Hin.
  rewrite !andb_true_iff in Hin. destruct Hin as [[[Hd Hc] Hp] Hs].
  unfold date_ok, category_ok in *.
  split.
  { intros Hcol d0 d1 Hr. rewrite Hcol, Hr in Hd.
    unfold between in Hd. destruct (Order_Date (order r)) as [t|];
      [|discriminate].
    exists t. split; [reflexivity|].
    apply andb_true_iff in Hd as [H0 H1].
    apply Z.leb_le in H0. apply Z.leb_le in H1. lia. }
  split.
  { intros Hcol Hne. rewrite Hcol in Hc.
    destruct (carriers s) as [|c0 cs] eqn:E; [congruence|].
    simpl truthy in Hc. simpl andb in Hc. apply isin_In in Hc.
    apply in_map_iff in Hc as (c & Hc & Hin). exists c. now split. }
  split.
  - intros Hcol Hne. rewrite Hcol in Hp.
    destruct (priorities s) as [|p0 ps] eqn:E; [congruence|].
    simpl truthy in Hp. simpl andb in Hp. now apply isin_In.
  - intros Hcol Hne. rewrite Hcol in Hs.
    destruct (segments s) as [|p0 ps] eqn:E; [congruence|].
    simpl truthy in Hs. simpl andb in Hs. now apply isin_In.
Qed.

Lemma active_filters_drop_missing_values_witness :
  (has_col "Order_Date" (columns sample_df) = true ->
   forall d0 d1, date_range one_carrier = [d0; d1] ->
   exists t,
     Order_Date (order (derive_row
       (sample_order "O1" 1 "BlueDart" "On-Time" (Some 100) (Some 5))))
     = Some t /\ (d0 <= t <= d1)%Z) /\
  (has_col "Carrier" (columns sample_df) = true ->
   carriers one_carrier <> [] ->
   exists c,
     Carrier (order (derive_row
       (sample_order "O1" 1 "BlueDart" "On-Time" (Some 100) (Some 5))))
     = Some c /\ In c (carriers one_carrier)) /\
  (has_col "Priority" (columns sample_df) = true ->
   priorities one_carrier <> [] ->
   In (Priority (order (derive_row
         (sample_order "O1" 1 "BlueDart" "On-Time" (Some 100) (Some 5)))))
      (priorities one_carrier)) /\
  (has_col "Customer_Segment" (columns sample_df) = true ->
   segments one_carrier <> [] ->
   In (Customer_Segment (order (derive_row
         (sample_order "O1" 1 "BlueDart" "On-Time" (Some 100) (Some 5)))))
      (segments one_carrier)).
Proof.
  apply (active_filters_drop_missing_values one_carrier sample_df
           (derive_row
              (sample_order "O1" 1 "BlueDart" "On-Time" (Some 100) (Some 5)))).
  vm_compute. tauto.
Defined.

(** ** The inventory tab *)

Lemma series_sum_cons_some x xs :
  series_sum (Some x :: xs) = x + series_sum xs.
Proof. reflexivity. Qed.

Lemma series_sum_cons_none xs : series_sum (None :: xs) = series_sum xs.
Proof. reflexivity. Qed.


Lemma insert_key_perm k l : Permutation (insert_key k l) (k :: l).
Proof.
  induction l as [|y l IH]; simpl; [apply Permutation_refl|].
  destruct (String.leb k y); [apply Permutation_refl|].
  apply Permutation_trans with (y :: k :: l).
  - now apply perm_skip.
  - apply perm_swap.
Qed.

Lemma sort_keys_perm l : Permutation (sort_keys l) l.
Proof.
  induction l as [|k l IH]; simpl; [apply Permutation_refl|].
  apply Permutation_trans with (k :: sort_keys l).
  - apply insert_key_perm.
  - now apply perm_skip.
Qed.

Lemma dropna_cells_In k cs : In k (dropna_cells cs) <-> In (Some k) cs.
Proof.
  induction cs as [|[x|] cs IH]; simpl.
  - tauto.
  - rewrite IH. split; intros [H|H]; auto; left; congruence.
  - rewrite IH. split; [auto|]. intros [H|H]; [discriminate | exact H].
Qed.

Lemma group_keys_In k cs : In k (group_keys cs) <-> In (Some k) cs.
Proof.
  unfold group_keys.
  rewrite <- dropna_cells_In, <- (nodup_In string_dec (dropna_cells cs) k).
  split; apply Permutation_in;
    [|apply Permutation_sym]; apply sort_keys_perm.
Qed.

Lemma group_keys_NoDup cs : NoDup (group_keys cs).
Proof.
  unfold group_keys.
  apply (Permutation_NoDup (Permutation_sym (sort_keys_perm _))).
  apply NoDup_nodup.
Qed.

Lemma Qsum_map_ext {A} (g h : A -> Q) l :
  (forall x, In x l -> g x == h x) -> Qsum (map g l) == Qsum (map h l).
Proof.
  induction l as [|a l IH]; intros H; [reflexivity|]. simpl.
  rewrite (H a (or_introl eq_refl)), IH; [reflexivity|].
  intros x Hx. apply H. now right.
Qed.

Lemma Qsum_map_plus {A} (g h : A -> Q) l :
  Qsum (map (fun x => g x + h x) l) == Qsum (map g l) + Qsum (map h l).
Proof.
  induction l as [|a l IH]; simpl; [reflexivity|]. rewrite IH. ring.
Qed.

(** An amount credited to one label of a duplicate-free list is counted
    exactly once in the total over the labels. *)
Lemma Qsum_one_label k0 c keys :
  NoDup keys ->
  Qsum (map (fun k => if String.eqb k0 k then c else 0) keys)
  == if in_dec string_dec k0 keys then c else 0.
Proof.
  induction 1 as [|k keys Hk Hnd IH]; [reflexivity|].
  cbn [map Qsum]. rewrite IH.
  destruct (String.eqb_spec k0 k) as [->|Hne].
  - destruct (in_dec string_dec k keys) as [Hin|_]; [contradiction|].
    destruct (in_dec string_dec k (k :: keys)) as [_|Hn];
      [ring | exfalso; apply Hn; now left].
  - destruct (in_dec string_dec k0 keys) as [Hin|Hnin];
      destruct (in_dec string_dec k0 (k :: keys)) as [Hin'|Hnin'];
      try ring.
    + exfalso. apply Hnin'. now right.
    + exfalso. destruct Hin' as [E|E]; [congruence | contradiction].
Qed.

(** Grouping by a key loses nothing but the rows without a key: the group
    sums over duplicate-free labels covering every key add up to the sum
    over the keyed rows. *)
Lemma group_sums_add_up {R} (key : R -> cell) (f : R -> num) keys l :
  NoDup keys ->
  (forall r k, In r l -> key r = Some k -> In k keys) ->
  Qsum (map (fun k =>
               series_sum (map f (filter (fun r => str_eq (key r) k) l)))
            keys)
  == keyed_sum key f l.
Proof.
  intros Hnd. induction l as [|r l IH]; intros Hcov.
  - unfold keyed_sum. cbn [filter map]. clear Hnd Hcov.
    induction keys as [|k keys IHk]; [reflexivity|].
    cbn [map Qsum]. rewrite IHk. reflexivity.
  - assert (IH' := IH (fun r' k Hin => Hcov r' k (or_intror Hin))).
    unfold keyed_sum in *. cbn [filter].
    destruct (key r) as [k0|] eqn:Ek.
    + set (c := match f r with Some x => x | None => 0 end).
      rewrite (Qsum_map_ext _
                 (fun k => (if String.eqb k0 k then c else 0)
                           + series_sum
                               (map f (filter (fun r => str_eq (key r) k) l)))).
      * rewrite Qsum_map_plus, IH', (Qsum_one_label k0 c keys Hnd).
        destruct (in_dec string_dec k0 keys) as [_|Hn].
        -- cbn [map]. unfold c. destruct (f r);
             [rewrite series_sum_cons_some | rewrite series_sum_cons_none];
             ring.
        -- exfalso. apply Hn, (Hcov r k0); [now left | exact Ek].
      * intros k _. cbn [str_eq].
        destruct (String.eqb k0 k); cbn [map]; [|ring].
        unfold c. destruct (f r);
          [rewrite series_sum_cons_some | rewrite series_sum_cons_none];
          ring.
    + rewrite <- IH'. apply Qsum_map_ext. intros k _. reflexivity.
Qed.

Lemma inventory_tab_ok w :
  wempty w = false ->
  has_col "Location" (wcolumns w) = true ->
  has_col "Current_Stock_Units" (wcolumns w) = true ->
  has_col "Storage_Cost_per_Unit" (wcolumns w) = true ->
  has_col "Reorder_Level" (wcolumns w) = true ->
  inventory_tab (Some w) =
    Ok (Some
      {| location_stock :=
           map (fun g => (fst g, series_sum (map Current_Stock_Units (snd g))))
               (groupby Location (wrows w));
         location_costs :=
           map (fun g => (fst g, mean (map Storage_Cost_per_Unit (snd g))))
               (groupby Location (wrows w));
         Stock_Status := map stock_status (wrows w) |}).
Proof.
  intros He H1 H2 H3 H4. unfold inventory_tab, wgroupby, wcolumn.
  rewrite He, H1, H2, H3, H4. reflexivity.
Qed.

(** The inventory tab is skipped for a missing or empty warehouse table.
    Otherwise it raises [KeyError] for the first column it cannot find, in
    the order Location, Current_Stock_Units, Storage_Cost_per_Unit,
    Reorder_Level; with all four present it succeeds, with one status per
    warehouse row and the same location labels in both charts. *)
Theorem inventory_tab_errors w :
  inventory_tab None = Ok None /\
  (wempty w = true -> inventory_tab (Some w) = Ok None) /\
  (wempty w = false ->
   (has_col "Location" (wcolumns w) = false ->
    inventory_tab (Some w) = Raise (KeyError "Location")) /\
   (has_col "Location" (wcolumns w) = true ->
    has_col "Current_Stock_Units" (wcolumns w) = false ->
    inventory_tab (Some w) = Raise (KeyError "Current_Stock_Units")) /\
   (has_col "Location" (wcolumns w) = true ->
    has_col "Current_Stock_Units" (wcolumns w) = true ->
    has_col "Storage_Cost_per_Unit" (wcolumns w) = false ->
    inventory_tab (Some w) = Raise (KeyError "Storage_Cost_per_Unit")) /\
   (has_col "Location" (wcolumns w) = true ->
    has_col "Current_Stock_Units" (wcolumns w) = true ->
    has_col "Storage_Cost_per_Unit" (wcolumns w) = true ->
    has_col "Reorder_Level" (wcolumns w) = false ->
    inventory_tab (Some w) = Raise (KeyError "Reorder_Level")) /\
   (has_col "Location" (wcolumns w) = true ->
    has_col "Current_Stock_Units" (wcolumns w) = true ->
    has_col "Storage_Cost_per_Unit" (wcolumns w) = true ->
    has_col "Reorder_Level" (wcolumns w) = true ->
    exists tab,
      inventory_tab (Some w) = Ok (Some tab) /\
      List.length (Stock_Status tab) = List.length (wrows w) /\
      map fst (location_stock tab) = map fst (location_costs tab))).
Proof.
  split; [reflexivity|]. split.
  { intros He. unfold inventory_tab. now rewrite He. }
  intros He. unfold inventory_tab, wgroupby, wcolumn. rewrite He.
  cbn [negb]. repeat split.
  - intros ->. reflexivity.
  - intros -> ->. reflexivity.
  - intros -> -> ->. reflexivity.
  - intros -> -> -> ->. reflexivity.
  - intros -> -> -> ->. eexists. split; [reflexivity|]. split.
    + apply length_map.
    + cbn [location_stock location_costs]. rewrite !map_map. reflexivity.
Qed.

Lemma inventory_tab_errors_witness :
  inventory_tab None = Ok None /\
  (wempty sample_warehouse = true ->
   inventory_tab (Some sample_warehouse) = Ok None) /\
  (has_col "Location" (wcolumns sample_warehouse) = true ->
   has_col "Current_Stock_Units" (wcolumns sample_warehouse) = true ->
   has_col "Storage_Cost_per_Unit" (wcolumns sample_warehouse) = true ->
   has_col "Reorder_Level" (wcolumns sample_warehouse) = true ->
   exists tab,
     inventory_tab (Some sample_warehouse) = Ok (Some tab) /\
     List.length (Stock_Status tab) = List.length (wrows sample_warehouse) /\
     map fst (location_stock tab) = map fst (location_costs tab)).
Proof.
  destruct (inventory_tab_errors sample_warehouse) as (H0 & H1 & H2).
  split; [exact H0|]. split; [exact H1|].
  apply (H2 eq_refl).
Defined.

(** The "Total Stock by Location" chart loses nothing but the rows
    without a location: its bars add up to the stock of all warehouse rows
    that have a location, every location present in the table has exactly
    one bar, and there is no bar for anything else. *)
Theorem location_stock_adds_up w :
  wempty w = false ->
  has_col "Location" (wcolumns w) = true ->
  has_col "Current_Stock_Units" (wcolumns w) = true ->
  has_col "Storage_Cost_per_Unit" (wcolumns w) = true ->
  has_col "Reorder_Level" (wcolumns w) = true ->
  exists tab,
    inventory_tab (Some w) = Ok (Some tab) /\
    Qsum (map snd (location_stock tab))
      == keyed_sum Location Current_Stock_Units (wrows w) /\
    NoDup (map fst (location_stock tab)) /\
    (forall k, In k (map fst (location_stock tab)) <->
               exists x, In x (wrows w) /\ Location x = Some k).
Proof.
  intros He H1 H2 H3 H4.
  rewrite (inventory_tab_ok w He H1 H2 H3 H4).
  eexists. split; [reflexivity|]. cbn [location_stock].
  unfold groupby. rewrite !map_map. cbn [fst snd].
  assert (forall k, In k (group_keys (map Location (wrows w))) <->
                    exists x, In x (wrows w) /\ Location x = Some k) as Hk.
  { intros k. rewrite group_keys_In, in_map_iff.
    split; intros (x & Hx); exists x; tauto. }
  split.
  { apply group_sums_add_up; [apply group_keys_NoDup|].
    intros r k Hin Hl. apply Hk. now exists r. }
  rewrite map_id. split; [apply group_keys_NoDup | exact Hk].
Qed.

Lemma location_stock_adds_up_witness :
  exists tab,
    inventory_tab (Some sample_warehouse) = Ok (Some tab) /\
    Qsum (map snd (location_stock tab))
      == keyed_sum Location Current_Stock_Units (wrows sample_warehouse) /\
    NoDup (map fst (location_stock tab)) /\
    (forall k, In k (map fst (location_stock tab)) <->
               exists x, In x (wrows sample_warehouse) /\
                         Location x = Some k).
Proof.
  apply (location_stock_adds_up sample_warehouse); reflexivity.
Defined.

(** On the sample, Delhi holds 90 units and Pune 40 + 10; the 7 units of
    the row without a location are in no bar. *)
Example sample_location_stock :
  exists tab,
    inventory_tab (Some sample_warehouse) = Ok (Some tab) /\
    map fst (location_stock tab) = ["Delhi"; "Pune"] /\
    Forall2 Qeq (map snd (location_stock tab)) [90; 50] /\
    Stock_Status tab = ["Low Stock"; "Adequate"; "Adequate"; "Low Stock"].
Proof.
  eexists. split; [reflexivity|]. split; [reflexivity|].
  split; [|reflexivity]. repeat constructor.
Qed.

Lemma string_leb_trans a b c :
  String.leb a b = true -> String.leb b c = true -> String.leb a c = true.
Proof.
  unfold String.leb. revert b c.
  induction a as [|x a IH]; intros [|y b] [|z c]; simpl;
    try reflexivity; try discriminate.
  unfold Ascii.compare.
  destruct (N.compare_spec (N_of_ascii x) (N_of_ascii y)) as [Exy|Exy|Exy];
    destruct (N.compare_spec (N_of_ascii y) (N_of_ascii z)) as [Eyz|Eyz|Eyz];
    try discriminate; intros Hab Hbc.
  - rewrite Exy, Eyz, N.compare_refl. now apply (IH b c).
  - rewrite Exy. apply N.compare_lt_iff in Eyz. now rewrite Eyz.
  - rewrite <- Eyz. apply N.compare_lt_iff in Exy. now rewrite Exy.
  - assert (N_of_ascii x < N_of_ascii z)%N as H by lia.
    apply N.compare_lt_iff in H. now rewrite H.
Qed.

Lemma insert_key_In k a l : In k (insert_key a l) <-> k = a \/ In k l.
Proof.
  split.
  - intros H. apply (Permutation_in _ (insert_key_perm a l)) in H.
    destruct H as [H|H]; auto.
  - intros H. apply (Permutation_in _ (Permutation_sym (insert_key_perm a l))).
    destruct H as [H|H]; [left; congruence | now right].
Qed.

Lemma insert_key_sorted a l :
  StronglySorted (fun x y => String.leb x y = true) l ->
  StronglySorted (fun x y => String.leb x y = true) (insert_key a l).
Proof.
  induction 1 as [|y l Hs IH Hy]; simpl.
  - constructor; constructor.
  - destruct (String.leb a y) eqn:E.
    + constructor; [now constructor|].
      constructor; [exact E|].
      apply Forall_forall. intros z Hz. rewrite Forall_forall in Hy.
      apply (string_leb_trans a y z E), Hy, Hz.
    + assert (String.leb y a = true) as Hya.
      { destruct (String.leb_total a y) as [H|H]; [congruence | exact H]. }
      constructor; [exact IH|].
      apply Forall_forall. intros z Hz. apply insert_key_In in Hz.
      destruct Hz as [->|Hz]; [exact Hya|].
      rewrite Forall_forall in Hy. apply Hy, Hz.
Qed.

Lemma group_keys_sorted cs :
  StronglySorted (fun x y => String.leb x y = true) (group_keys cs).
Proof.
  unfold group_keys. induction (nodup string_dec (dropna_cells cs))
    as [|k l IH]; simpl; [constructor|].
  apply insert_key_sorted, IH.
Qed.

(** Both location charts list their locations in ascending order, each
    once: every label is below all the labels after it and differs from
    them. *)
Theorem location_labels_ascending w :
  wempty w = false ->
  has_col "Location" (wcolumns w) = true ->
  has_col "Current_Stock_Units" (wcolumns w) = true ->
  has_col "Storage_Cost_per_Unit" (wcolumns w) = true ->
  has_col "Reorder_Level" (wcolumns w) = true ->
  exists tab,
    inventory_tab (Some w) = Ok (Some tab) /\
    map fst (location_costs tab) = map fst (location_stock tab) /\
    StronglySorted (fun a b => String.leb a b = true /\ a <> b)
      (map fst (location_stock tab)).
Proof.
  intros He H1 H2 H3 H4.
  rewrite (inventory_tab_ok w He H1 H2 H3 H4).
  eexists. split; [reflexivity|].
  cbn [location_stock location_costs]. unfold groupby.
  rewrite !map_map. cbn [fst]. split; [reflexivity|]. rewrite map_id.
  pose proof (group_keys_sorted (map Location (wrows w))) as Hs.
  pose proof (group_keys_NoDup (map Location (wrows w))) as Hn.
  induction Hs as [|k l Hs IH Hk]; [constructor|].
  inversion Hn as [|? ? Hnin Hn']; subst.
  constructor; [now apply IH|].
  rewrite Forall_forall in *. intros z Hz. split; [now apply Hk|].
  intros ->. contradiction.
Qed.

Lemma location_labels_ascending_witness :
  exists tab,
    inventory_tab (Some sample_warehouse) = Ok (Some tab) /\
    map fst (location_costs tab) = map fst (location_stock tab) /\
    StronglySorted (fun a b => String.leb a b = true /\ a <> b)
      (map fst (location_stock tab)).
Proof.
  apply (location_labels_ascending sample_warehouse); reflexivity.
Defined.

(** Every warehouse row gets a status, in row order.  It is "Low Stock"
    exactly when stock and reorder level are both numbers and the stock
    does not exceed the level, and "Adequate" in every other case, a
    missing stock or level included. *)
Theorem stock_status_low_iff w :
  wempty w = false ->
  has_col "Location" (wcolumns w) = true ->
  has_col "Current_Stock_Units" (wcolumns w) = true ->
  has_col "Storage_Cost_per_Unit" (wcolumns w) = true ->
  has_col "Reorder_Level" (wcolumns w) = true ->
  exists tab,
    inventory_tab (Some w) = Ok (Some tab) /\
    Forall2 (fun x st =>
               (st = "Low Stock" <->
                exists c l, Current_Stock_Units x = Some c /\
                            Reorder_Level x = Some l /\ c <= l) /\
               (st = "Low Stock" \/ st = "Adequate"))
            (wrows w) (Stock_Status tab).
Proof.
  intros He H1 H2 H3 H4.
  rewrite (inventory_tab_ok w He H1 H2 H3 H4).
  eexists. split; [reflexivity|]. cbn [Stock_Status].
  induction (wrows w) as [|x l IH]; [constructor|].
  cbn [map]. constructor; [|exact IH].
  unfold stock_status, nan_le.
  destruct (Current_Stock_Units x) as [c|], (Reorder_Level x) as [lv|].
  - destruct (Qle_bool c lv) eqn:E.
    + apply Qle_bool_iff in E. split; [|now left].
      split; [|reflexivity]. intros _. now exists c, lv.
    + split; [|now right]. split; [discriminate|].
      intros (c' & l' & Hc & Hl & Hle).
      injection Hc as <-. injection Hl as <-.
      apply Qle_bool_iff in Hle. congruence.
  - split; [|now right]. split; [discriminate|].
    intros (c' & l' & _ & Hl & _). discriminate Hl.
  - split; [|now right]. split; [discriminate|].
    intros (c' & l' & Hc & _). discriminate Hc.
  - split; [|now right]. split; [discriminate|].
    intros (c' & l' & Hc & _). discriminate Hc.
Qed.

Lemma stock_status_low_iff_witness :
  exists tab,
    inventory_tab (Some sample_warehouse) = Ok (Some tab) /\
    Forall2 (fun x st =>
               (st = "Low Stock" <->
                exists c l, Current_Stock_Units x = Some c /\
                            Reorder_Level x = Some l /\ c <= l) /\
               (st = "Low Stock" \/ st = "Adequate"))
            (wrows sample_warehouse) (Stock_Status tab).
Proof.
  apply (stock_status_low_iff sample_warehouse); reflexivity.
Defined.

(** ** Averages stay within the range of the values *)

Lemma Qlen_cons {A} (x : A) l : Qlen (x :: l) == Qlen l + 1.
Proof.
  unfold Qlen. simpl List.length.
  rewrite Nat2Z.inj_succ, <- Z.add_1_r, inject_Z_plus. reflexivity.
Qed.

Lemma Qsum_bounds lo hi vs :
  Forall (fun x => lo <= x <= hi) vs ->
  lo * Qlen vs <= Qsum vs <= hi * Qlen vs.
Proof.
  induction 1 as [|x vs [Hx0 Hx1] Hvs [IH0 IH1]].
  - change (Qlen (@nil Q)) with 0. cbn [Qsum]. split; lra.
  - rewrite Qlen_cons. cbn [Qsum]. split; nra.
Qed.

Lemma dropna_Forall (P : Q -> Prop) xs :
  Forall (fun c => forall x, c = Some x -> P x) xs -> Forall P (dropna xs).
Proof.
  induction 1 as [|c xs Hc Hxs IH]; [constructor|].
  destruct c as [x|]; simpl; [|exact IH].
  constructor; [now apply Hc | exact IH].
Qed.

Lemma mean_bounds lo hi xs m :
  Forall (fun c => forall x, c = Some x -> lo <= x <= hi) xs ->
  mean xs = Some m -> lo <= m <= hi.
Proof.
  intros Hall Hm. apply dropna_Forall in Hall. unfold mean in Hm.
  destruct (dropna xs) as [|v vs] eqn:E; [discriminate|].
  injection Hm as <-.
  pose proof (Qsum_bounds lo hi (v :: vs) Hall) as [H0 H1].
  assert (0 < Qlen (v :: vs)) as Hpos by (apply Qlen_pos; discriminate).
  split.
  - apply Qle_shift_div_l; assumption.
  - apply Qle_shift_div_r; assumption.
Qed.

(** When every rating that is a number lies between 1 and 5, the
    [avg_rating] of a table with a row and a rating column is either NaN
    (no rating at all) or a number between 1 and 5. *)
Theorem avg_rating_within_1_and_5 df :
  rows df <> [] ->
  has_col "On_Time" (columns df) = true ->
  has_col "Delivery_Status" (columns df) = true ->
  has_col "Customer_Rating" (columns df) = true ->
  Forall (fun r => forall x, Customer_Rating (order r) = Some x ->
                             1 <= x <= 5) (rows df) ->
  exists d avg_rating,
    create_kpi_metrics (Some df) = Ok d /\
    dict_get "avg_rating" d = Some (VFloat avg_rating) /\
    (avg_rating = None <->
     Forall (fun r => Customer_Rating (order r) = None) (rows df)) /\
    (forall m, avg_rating = Some m -> 1 <= m <= 5).
Proof.
  intros Hr Hon Hst Hra Hratings.
  rewrite (create_kpi_metrics_nonempty df Hr Hon Hst), Hra.
  do 2 eexists. split; [reflexivity|]. split; [reflexivity|]. split.
  - destruct (mean_cases (map (fun r => Customer_Rating (order r)) (rows df)))
      as [H0 H1].
    split.
    + intros Hm. apply Forall_forall. intros r Hin.
      destruct (Customer_Rating (order r)) as [x|] eqn:E; [|reflexivity].
      exfalso. destruct H1 as (m & Hm' & _); [|congruence].
      clear - Hin E. induction (rows df) as [|r' l IH]; [destruct Hin|].
      simpl. destruct Hin as [->|Hin].
      * rewrite E. discriminate.
      * destruct (Customer_Rating (order r')); [discriminate | now apply IH].
    + intros Hall. apply H0. clear - Hall.
      induction Hall as [|r l Hr Hl IH]; [reflexivity|].
      simpl. now rewrite Hr.
  - intros m. apply mean_bounds. apply Forall_map. exact Hratings.
Qed.

Lemma avg_rating_within_1_and_5_witness :
  exists d avg_rating,
    create_kpi_metrics (Some sample_df) = Ok d /\
    dict_get "avg_rating" d = Some (VFloat avg_rating) /\
    (avg_rating = None <->
     Forall (fun r => Customer_Rating (order r) = None) (rows sample_df)) /\
    (forall m, avg_rating = Some m -> 1 <= m <= 5).
Proof.
  apply (avg_rating_within_1_and_5 sample_df);
    try reflexivity; try discriminate;
    repeat (apply Forall_cons || apply Forall_nil);
    intros x H; try discriminate H;
    injection H as <-; split; unfold Qle; simpl; lia.
Defined.
